(** * The DSA Dojo Automator page controller (templates/script.js)

    A shallow embedding of the browser-side controller: the handlers of the
    generate, commit and delete forms, [populateVerificationForm],
    [fetchProblemsForBelt] and [displayMessage], together with the fragment
    of JavaScript and of the DOM they rely on.

    - Values that arrive over the network are JSON values ([JSON]); a
      JavaScript value is a JSON value or [undefined].
    - The page is a record ([Page]) of the elements the script reads and
      writes, the global [generatedProblems] and the log of the requests
      passed to [fetch].
    - An [async] function is a tree of synchronous turns ([Task]): every
      [await] ends a turn, and the continuation runs on whatever page it
      finds when the awaited promise settles. *)

From Stdlib Require Import String Ascii List ZArith Bool Lia.
From Stdlib Require Import Decimal DecimalFacts DecimalNat DecimalString.
Import ListNotations.
Open Scope string_scope.
Open Scope list_scope.
Set Warnings "-register-all".

(** ** JavaScript values *)

Module JS.

(** What [JSON.parse] can produce.  Numbers are the integral ones (no
    handler computes with a number of a response); a string stands for the
    JavaScript string with the same code units. *)
Inductive JSON : Type :=
| JNull
| JBool (b : bool)
| JNum (n : Z)
| JStr (s : string)
| JArr (items : list JSON)
| JObj (members : list (string * JSON)).

(** A JavaScript value held by the script: [None] is [undefined]. *)
Definition Value : Type := option JSON.
Abbreviation undefined := (@None JSON).

(** The exceptions the script can meet.  [NetworkFailure] is the TypeError
    [fetch] rejects with; [BodyAlreadyRead] the TypeError of a second
    [response.json()]; [NotAnObject] the TypeError of a property read on
    [null] or [undefined]; [NotCallable] the TypeError of calling a member
    that is not a function; [JsonSyntax] the SyntaxError of [JSON.parse]. *)
Inductive Error : Type :=
| NetworkFailure
| BodyAlreadyRead
| NotAnObject
| NotCallable
| JsonSyntax.

(** Synchronous code either yields a value or throws. *)
Inductive Result (A : Type) : Type :=
| Ok (a : A)
| Throw (e : Error).
Arguments Ok {A} a.
Arguments Throw {A} e.

(** Decimal rendering, as [String(n)] for an integer (of a magnitude below
    10^21, where JavaScript turns to the exponent notation). *)
Definition nat_to_string (n : nat) : string :=
  NilZero.string_of_uint (Nat.to_uint n).

Definition Z_to_string (n : Z) : string :=
  if Z.ltb n 0 then "-" ++ nat_to_string (Z.abs_nat n)
  else nat_to_string (Z.to_nat n).

(** [ToBoolean]. *)
Definition truthy (v : Value) : bool :=
  match v with
  | None => false
  | Some JNull => false
  | Some (JBool b) => b
  | Some (JNum n) => negb (Z.eqb n 0)
  | Some (JStr s) => negb (String.eqb s "")
  | Some (JArr _) => true
  | Some (JObj _) => true
  end.

(** [Array.prototype.join(",")] over already rendered items. *)
Fixpoint join_comma (l : list string) : string :=
  match l with
  | [] => ""
  | [x] => x
  | x :: rest => x ++ "," ++ join_comma rest
  end.

(** [ToString] of a JSON value.  An array renders its items separated by
    commas, [null] items as the empty string; an object renders as
    [[object Object]]. *)
Fixpoint to_string (j : JSON) : string :=
  match j with
  | JNull => "null"
  | JBool true => "true"
  | JBool false => "false"
  | JNum n => Z_to_string n
  | JStr s => s
  | JArr items =>
      join_comma
        (map (fun x => match x with JNull => "" | _ => to_string x end) items)
  | JObj _ => "[object Object]"
  end.

(** [ToString] of a value that may be [undefined]. *)
Definition value_to_string (v : Value) : string :=
  match v with
  | None => "undefined"
  | Some j => to_string j
  end.

(** The last member named [key]: [JSON.parse] keeps the last duplicate. *)
Fixpoint lookup (key : string) (members : list (string * JSON)) : Value :=
  match members with
  | [] => None
  | (k, v) :: rest =>
      match lookup key rest with
      | Some v' => Some v'
      | None => if String.eqb k key then Some v else None
      end
  end.

(** A property key that is a canonical array index: the decimal rendering
    of a natural number, and nothing else (["01"], ["+1"], [""] are not). *)
Definition array_index (key : string) : option nat :=
  match NilZero.uint_of_string key with
  | Some d =>
      let n := Nat.of_uint d in
      if String.eqb (nat_to_string n) key then Some n else None
  | None => None
  end.

(** The one-character string at a position, for an indexed read of a
    string. *)
Definition char_at (s : string) (n : nat) : Value :=
  match String.get n s with
  | Some c => Some (JStr (String c EmptyString))
  | None => None
  end.

(** [base[key]] for a base that is neither [null] nor [undefined].  Own
    properties only: members inherited from a prototype (methods) are not
    values of this model, and the script reads none of them as data. *)
Definition get_own (base : JSON) (key : string) : Value :=
  match base with
  | JNull => None
  | JBool _ => None
  | JNum _ => None
  | JStr s =>
      if String.eqb key "length" then Some (JNum (Z.of_nat (String.length s)))
      else match array_index key with
           | Some n => char_at s n
           | None => None
           end
  | JArr items =>
      if String.eqb key "length" then Some (JNum (Z.of_nat (List.length items)))
      else match array_index key with
           | Some n => nth_error items n
           | None => None
           end
  | JObj members => lookup key members
  end.

(** [base.key] and [base[key]]: a TypeError on [null] and [undefined]. *)
Definition get (base : Value) (key : string) : Result Value :=
  match base with
  | None => Throw NotAnObject
  | Some JNull => Throw NotAnObject
  | Some j => Ok (get_own j key)
  end.

(** [ToPropertyKey] of a value used between brackets. *)
Definition to_property_key (v : Value) : string := value_to_string v.

(** [v > 0].  [None] where the comparison needs the conversion of a string
    to a number (a string, or an array or object through [ToPrimitive]),
    which this development does not model. *)
Definition gt_zero (v : Value) : option bool :=
  match v with
  | None => Some false
  | Some JNull => Some false
  | Some (JBool b) => Some b
  | Some (JNum n) => Some (Z.ltb 0 n)
  | Some (JStr _) => None
  | Some (JArr _) => None
  | Some (JObj _) => None
  end.

End JS.
Import JS.

(** ** The network *)

(** The entries of a [FormData]: names and values in document order. *)
Definition FormData : Type := list (string * string).

(** [formData.get(name)]: the first value under the name, or [null]. *)
Fixpoint form_get (name : string) (fd : FormData) : option string :=
  match fd with
  | [] => None
  | (k, v) :: rest => if String.eqb k name then Some v else form_get name rest
  end.

(** What the script passes to [fetch]. *)
Inductive Request : Type :=
| GET (url : string)
| POST (url : string) (body : FormData).

(** What the server answers: [ok] is [response.ok] (a 2xx status); [body]
    is the JSON value the body text parses to, [None] when it is not JSON. *)
Record Reply : Type := mkReply {
  ok : bool;
  body : option JSON
}.

(** How the promise of [fetch] settles: with a response, whatever its
    status, or rejected when the request fails on the network. *)
Inductive Settlement : Type :=
| Responded (r : Reply)
| Failed.

(** The [Response] object a handler holds: the reply and the flag
    [bodyUsed], set by the first read of the body. *)
Record Response : Type := mkResponse {
  reply : Reply;
  bodyUsed : bool
}.

Definition new_response (r : Reply) : Response := mkResponse r false.

(** [response.json()]: the body can be read once; a second read rejects
    with a TypeError, a body that is not JSON with a SyntaxError.  Returns
    the response object after the call and what the promise settles with. *)
Definition json (r : Response) : Response * Result JSON :=
  if bodyUsed r then (r, Throw BodyAlreadyRead)
  else
    (mkResponse (reply r) true,
     match body (reply r) with
     | Some v => Ok v
     | None => Throw JsonSyntax
     end).

(** ** The page *)

(** An [<option>]: the text and the value it was built with, and whether
    it was built selected. *)
Record OptionEl : Type := mkOption {
  opt_text : string;
  opt_value : string;
  opt_selected : bool
}.

(** [new Option(text, value)] and [new Option(text, value, true, true)]. *)
Definition Option2 (text value : string) : OptionEl :=
  mkOption text value false.
Definition Option4 (text value : string) (defaultSelected selected : bool)
  : OptionEl :=
  mkOption text value selected.

(** A [<select>]: its options, the index of the selected one ([None] when
    it has no option) and its [disabled] flag. *)
Record Select : Type := mkSelect {
  options : list OptionEl;
  selectedIndex : option nat;
  disabled : bool
}.

(** [select.value]: the value of the selected option, or the empty string. *)
Definition select_value (sel : Select) : string :=
  match selectedIndex sel with
  | Some i =>
      match nth_error (options sel) i with
      | Some o => opt_value o
      | None => ""
      end
  | None => ""
  end.

(** [select.innerHTML = ''] *)
Definition select_clear (sel : Select) : Select :=
  mkSelect [] None (disabled sel).

(** [select.innerHTML = '<option value="">text</option>']: one option, which
    a drop-down then shows as selected. *)
Definition select_only (text : string) (sel : Select) : Select :=
  mkSelect [Option2 text ""] (Some 0) (disabled sel).

(** [select.add(o)]: appended last.  An option built selected becomes the
    selected one; otherwise the selection stays, and a drop-down in which
    nothing is selected selects its first option. *)
Definition select_add (o : OptionEl) (sel : Select) : Select :=
  mkSelect (options sel ++ [o])
           (if opt_selected o then Some (List.length (options sel))
            else match selectedIndex sel with
                 | Some i => Some i
                 | None => Some 0
                 end)
           (disabled sel).

Definition select_set_disabled (b : bool) (sel : Select) : Select :=
  mkSelect (options sel) (selectedIndex sel) b.

(** One element appended by [displayMessage]: its text and the type in its
    class name ([status-message success], [status-message error]). *)
Record Message : Type := mkMessage {
  msg_text : string;
  msg_type : string
}.

(** The fields of the review form, named by the ids of their elements. *)
Record ReviewForm : Type := mkReview {
  problem_title : string;
  verify_topic : string;
  verify_belt : string;
  readme_content : string;
  solution_content : string
}.

Definition blank_review : ReviewForm := mkReview "" "" "" "" "".

(** Everything the script reads or writes.  A [true] in a [_hidden] field
    is the class [hidden] on the element; a [true] in a [_busy] field is
    the attribute [aria-busy] on the button. *)
Record Page : Type := mkPage {
  loader_hidden : bool;
  verificationSection_hidden : bool;
  problemSelectorContainer_hidden : bool;
  statusContainer : list Message;
  generate_busy : bool;
  commit_busy : bool;
  deleteBtn_busy : bool;
  deleteBtn_disabled : bool;
  generateForm : FormData;
  problemSelector : Select;
  review : ReviewForm;
  review_defaults : ReviewForm;
  deleteBeltSelector : string;
  deleteProblemSelector : Select;
  generatedProblems : JSON;
  sent : list Request
}.

(** Field updates. *)
Definition set_loader_hidden (b : bool) (p : Page) : Page :=
  mkPage b (verificationSection_hidden p) (problemSelectorContainer_hidden p)
    (statusContainer p) (generate_busy p) (commit_busy p) (deleteBtn_busy p)
    (deleteBtn_disabled p) (generateForm p) (problemSelector p) (review p)
    (review_defaults p) (deleteBeltSelector p) (deleteProblemSelector p)
    (generatedProblems p) (sent p).

Definition set_verificationSection_hidden (b : bool) (p : Page) : Page :=
  mkPage (loader_hidden p) b (problemSelectorContainer_hidden p)
    (statusContainer p) (generate_busy p) (commit_busy p) (deleteBtn_busy p)
    (deleteBtn_disabled p) (generateForm p) (problemSelector p) (review p)
    (review_defaults p) (deleteBeltSelector p) (deleteProblemSelector p)
    (generatedProblems p) (sent p).

Definition set_problemSelectorContainer_hidden (b : bool) (p : Page) : Page :=
  mkPage (loader_hidden p) (verificationSection_hidden p) b
    (statusContainer p) (generate_busy p) (commit_busy p) (deleteBtn_busy p)
    (deleteBtn_disabled p) (generateForm p) (problemSelector p) (review p)
    (review_defaults p) (deleteBeltSelector p) (deleteProblemSelector p)
    (generatedProblems p) (sent p).

Definition set_statusContainer (l : list Message) (p : Page) : Page :=
  mkPage (loader_hidden p) (verificationSection_hidden p)
    (problemSelectorContainer_hidden p) l (generate_busy p) (commit_busy p)
    (deleteBtn_busy p) (deleteBtn_disabled p) (generateForm p)
    (problemSelector p) (review p) (review_defaults p) (deleteBeltSelector p)
    (deleteProblemSelector p) (generatedProblems p) (sent p).

Definition set_generate_busy (b : bool) (p : Page) : Page :=
  mkPage (loader_hidden p) (verificationSection_hidden p)
    (problemSelectorContainer_hidden p) (statusContainer p) b (commit_busy p)
    (deleteBtn_busy p) (deleteBtn_disabled p) (generateForm p)
    (problemSelector p) (review p) (review_defaults p) (deleteBeltSelector p)
    (deleteProblemSelector p) (generatedProblems p) (sent p).

Definition set_commit_busy (b : bool) (p : Page) : Page :=
  mkPage (loader_hidden p) (verificationSection_hidden p)
    (problemSelectorContainer_hidden p) (statusContainer p) (generate_busy p)
    b (deleteBtn_busy p) (deleteBtn_disabled p) (generateForm p)
    (problemSelector p) (review p) (review_defaults p) (deleteBeltSelector p)
    (deleteProblemSelector p) (generatedProblems p) (sent p).

Definition set_deleteBtn_busy (b : bool) (p : Page) : Page :=
  mkPage (loader_hidden p) (verificationSection_hidden p)
    (problemSelectorContainer_hidden p) (statusContainer p) (generate_busy p)
    (commit_busy p) b (deleteBtn_disabled p) (generateForm p)
    (problemSelector p) (review p) (review_defaults p) (deleteBeltSelector p)
    (deleteProblemSelector p) (generatedProblems p) (sent p).

Definition set_deleteBtn_disabled (b : bool) (p : Page) : Page :=
  mkPage (loader_hidden p) (verificationSection_hidden p)
    (problemSelectorContainer_hidden p) (statusContainer p) (generate_busy p)
    (commit_busy p) (deleteBtn_busy p) b (generateForm p)
    (problemSelector p) (review p) (review_defaults p) (deleteBeltSelector p)
    (deleteProblemSelector p) (generatedProblems p) (sent p).

Definition set_problemSelector (sel : Select) (p : Page) : Page :=
  mkPage (loader_hidden p) (verificationSection_hidden p)
    (problemSelectorContainer_hidden p) (statusContainer p) (generate_busy p)
    (commit_busy p) (deleteBtn_busy p) (deleteBtn_disabled p) (generateForm p)
    sel (review p) (review_defaults p) (deleteBeltSelector p)
    (deleteProblemSelector p) (generatedProblems p) (sent p).

Definition set_review (f : ReviewForm) (p : Page) : Page :=
  mkPage (loader_hidden p) (verificationSection_hidden p)
    (problemSelectorContainer_hidden p) (statusContainer p) (generate_busy p)
    (commit_busy p) (deleteBtn_busy p) (deleteBtn_disabled p) (generateForm p)
    (problemSelector p) f (review_defaults p) (deleteBeltSelector p)
    (deleteProblemSelector p) (generatedProblems p) (sent p).

Definition set_deleteProblemSelector (sel : Select) (p : Page) : Page :=
  mkPage (loader_hidden p) (verificationSection_hidden p)
    (problemSelectorContainer_hidden p) (statusContainer p) (generate_busy p)
    (commit_busy p) (deleteBtn_busy p) (deleteBtn_disabled p) (generateForm p)
    (problemSelector p) (review p) (review_defaults p) (deleteBeltSelector p)
    sel (generatedProblems p) (sent p).

Definition set_generatedProblems (v : JSON) (p : Page) : Page :=
  mkPage (loader_hidden p) (verificationSection_hidden p)
    (problemSelectorContainer_hidden p) (statusContainer p) (generate_busy p)
    (commit_busy p) (deleteBtn_busy p) (deleteBtn_disabled p) (generateForm p)
    (problemSelector p) (review p) (review_defaults p) (deleteBeltSelector p)
    (deleteProblemSelector p) v (sent p).

Definition set_sent (l : list Request) (p : Page) : Page :=
  mkPage (loader_hidden p) (verificationSection_hidden p)
    (problemSelectorContainer_hidden p) (statusContainer p) (generate_busy p)
    (commit_busy p) (deleteBtn_busy p) (deleteBtn_disabled p) (generateForm p)
    (problemSelector p) (review p) (review_defaults p) (deleteBeltSelector p)
    (deleteProblemSelector p) (generatedProblems p) l.

(** Assignment to [element.value] of an input or a textarea: [null] gives
    the empty string, anything else its [ToString]. *)
Definition field_value (v : Value) : string :=
  match v with
  | Some JNull => ""
  | _ => value_to_string v
  end.

(** Assignment to [element.textContent]: [null] and [undefined] give the
    empty string. *)
Definition text_content (v : Value) : string :=
  match v with
  | None => ""
  | Some JNull => ""
  | Some j => to_string j
  end.

(** ** Asynchronous functions *)

(** How a call ends: the promise of an [async] function is fulfilled or
    rejected; a plain listener returns or throws. *)
Inductive Outcome : Type :=
| Fulfilled
| Rejected (e : Error).

(** What is left of a call at the end of a turn.
    - [Settled]: nothing, the call is over.
    - [AwaitFetch]: suspended on the promise of [fetch]; the continuation
      gets the settlement and the page as it is then.
    - [AwaitBody]: suspended on the promise of [response.json()], which
      settles with [promise].
    - [Fork]: an [async] function was called and its promise dropped;
      [child] goes on by itself, the caller goes on as [rest].
    - [Unmodelled]: the turn met a conversion outside the modelled
      fragment of JavaScript (see [gt_zero]). *)
Inductive Task : Type :=
| Settled (o : Outcome)
| AwaitFetch (req : Request) (k : Settlement -> Page -> Turn)
| AwaitBody (promise : Result JSON) (k : Result JSON -> Page -> Turn)
| Fork (child rest : Task)
| Unmodelled
with Turn : Type :=
| turn (p : Page) (t : Task).

Definition page_of (x : Turn) : Page := match x with turn p _ => p end.
Definition task_of (x : Turn) : Task := match x with turn _ t => t end.

(** [await fetch(req)]: the request is sent in the current turn. *)
Definition fetch (req : Request) (p : Page)
  (k : Settlement -> Page -> Turn) : Turn :=
  turn (set_sent (sent p ++ [req]) p) (AwaitFetch req k).

(** [array.forEach(f)], with the index passed to the callback.  A callback
    that throws ends the loop; the state reached so far stays. *)
Fixpoint forEach {S : Type} (f : JSON -> nat -> S -> S * Result unit)
  (items : list JSON) (i : nat) (s : S) : S * Result unit :=
  match items with
  | [] => (s, Ok tt)
  | x :: rest =>
      match f x i s with
      | (s', Ok _) => forEach f rest (Datatypes.S i) s'
      | (s', Throw e) => (s', Throw e)
      end
  end.

(** ** The functions of script.js *)

(** [populateVerificationForm(problemIndex)] (lines 28-35).  The four
    fields are editable text controls: the markup is not part of the
    sources, so each is taken to hold the string assigned to it. *)
Definition populateVerificationForm (problemIndex : Value) (p : Page)
  : Result Page :=
  match get (Some (generatedProblems p)) (to_property_key problemIndex) with
  | Throw e => Throw e
  | Ok problem =>
      if negb (truthy problem) then Ok p
      else
        match problem with
        | None => Ok p
        | Some item =>
            (* [item] is truthy, so reading its properties cannot throw *)
            Ok (set_review
                  (mkReview (field_value (get_own item "title"))
                     (field_value (get_own item "topic"))
                     (verify_belt (review p))
                     (field_value (get_own item "readme"))
                     (field_value (get_own item "solution"))) p)
        end
  end.

(** The rest of [fetchProblemsForBelt] once the body is parsed (lines
    44-52). *)
Definition fetchProblemsForBelt_parsed (problems : JSON) (p : Page) : Turn :=
  let p := set_deleteProblemSelector
             (select_clear (deleteProblemSelector p)) p in
  match get (Some problems) "length" with
  | Throw e => turn p (Settled (Rejected e))
  | Ok len =>
      match gt_zero len with
      | None => turn p Unmodelled
      | Some true =>
          let p := set_deleteProblemSelector
                     (select_add (Option4 "-- Select a problem --" "" true true)
                        (deleteProblemSelector p)) p in
          match problems with
          | JArr items =>
              match
                forEach
                  (fun problem _ sel =>
                     (select_add
                        (Option2 (to_string problem) (to_string problem)) sel,
                      Ok tt))
                  items 0 (deleteProblemSelector p)
              with
              | (sel, Throw e) =>
                  turn (set_deleteProblemSelector sel p) (Settled (Rejected e))
              | (sel, Ok _) =>
                  let p := set_deleteProblemSelector sel p in
                  let p := set_deleteProblemSelector
                             (select_set_disabled false
                                (deleteProblemSelector p)) p in
                  let p := set_deleteBtn_disabled false p in
                  turn p (Settled Fulfilled)
              end
          | _ => turn p (Settled (Rejected NotCallable))
          end
      | Some false =>
          turn (set_deleteProblemSelector
                  (select_only "-- No problems found --"
                     (deleteProblemSelector p)) p)
               (Settled Fulfilled)
      end
  end.

(** The rest of [fetchProblemsForBelt] once [fetch] has settled (lines
    42-55). *)
Definition fetchProblemsForBelt_fetched (s : Settlement) (p : Page) : Turn :=
  match s with
  | Failed => turn p (Settled (Rejected NetworkFailure))
  | Responded r =>
      let response := new_response r in
      if ok (reply response) then
        let '(response, promise) := json response in
        turn p
          (AwaitBody promise
             (fun settled p =>
                match settled with
                | Throw e => turn p (Settled (Rejected e))
                | Ok problems => fetchProblemsForBelt_parsed problems p
                end))
      else
        turn (set_deleteProblemSelector
                (select_only "-- Error loading --" (deleteProblemSelector p)) p)
             (Settled Fulfilled)
  end.

(** [fetchProblemsForBelt(beltName)] (lines 37-56). *)
Definition fetchProblemsForBelt (beltName : string) (p : Page) : Turn :=
  let p := set_deleteProblemSelector
             (select_only "Loading..." (deleteProblemSelector p)) p in
  let p := set_deleteProblemSelector
             (select_set_disabled true (deleteProblemSelector p)) p in
  let p := set_deleteBtn_disabled true p in
  fetch (GET ("/problems/" ++ beltName)) p fetchProblemsForBelt_fetched.

(** [displayMessage(message, type)] (lines 62-68): the element appended to
    the status container.  The timer that removes it later runs outside of
    the handler that displayed it and is not part of this function. *)
Definition displayMessage (message : Value) (type : string) (p : Page) : Page :=
  set_statusContainer
    (statusContainer p ++ [mkMessage (text_content message) type]) p.

(** The listener of [problemSelector] (line 72): [e.target.value] is the
    value of the selector at the time of the event. *)
Definition problemSelector_change (p : Page) : Turn :=
  match populateVerificationForm
          (Some (JStr (select_value (problemSelector p)))) p with
  | Ok p' => turn p' (Settled Fulfilled)
  | Throw e => turn p (Settled (Rejected e))
  end.

(** The callback of [generatedProblems.forEach] in the generate handler
    (line 89): the label is [p.title], or [Problem {i + 1}] when the title
    is falsy; the value is the index. *)
Definition add_problem_option (problem : JSON) (i : nat) (sel : Select)
  : Select * Result unit :=
  match get (Some problem) "title" with
  | Throw e => (sel, Throw e)
  | Ok title =>
      let label :=
        if truthy title then value_to_string title
        else ("Problem " ++ nat_to_string (i + 1))%string in
      (select_add (Option2 label (nat_to_string i)) sel, Ok tt)
  end.

(** Lines 88-93 of the generate handler: the batch is not empty. *)
Definition generate_show (formData : FormData) (p : Page) : Turn :=
  let p := set_problemSelector (select_clear (problemSelector p)) p in
  match generatedProblems p with
  | JArr items =>
      match forEach add_problem_option items 0 (problemSelector p) with
      | (sel, Throw e) => turn (set_problemSelector sel p) (Settled (Rejected e))
      | (sel, Ok _) =>
          let p := set_problemSelector sel p in
          let p := set_problemSelectorContainer_hidden false p in
          let p := set_verificationSection_hidden false p in
          let belt := match form_get "belt" formData with
                      | Some v => v
                      | None => ""
                      end in
          let f := review p in
          let p := set_review
                     (mkReview (problem_title f) (verify_topic f) belt
                        (readme_content f) (solution_content f)) p in
          match populateVerificationForm (Some (JNum 0)) p with
          | Ok p => turn p (Settled Fulfilled)
          | Throw e => turn p (Settled (Rejected e))
          end
      end
  | _ => turn p (Settled (Rejected NotCallable))
  end.

(** Lines 95-96 of the generate handler: the body is read again and the
    message displayed. *)
Definition generate_empty (response : Response) (p : Page) : Turn :=
  let '(response, promise) := json response in
  turn p
    (AwaitBody promise
       (fun settled p =>
          match settled with
          | Throw e => turn p (Settled (Rejected e))
          | Ok result =>
              match get (Some result) "message" with
              | Throw e => turn p (Settled (Rejected e))
              | Ok message =>
                  turn (displayMessage
                          (if truthy message then message
                           else Some (JStr "AI generated no problems."))
                          "error" p)
                       (Settled Fulfilled)
              end
          end)).

(** Lines 86-97: the body of a 2xx response has been parsed. *)
Definition generate_parsed (formData : FormData) (response : Response)
  (parsed : JSON) (p : Page) : Turn :=
  let p := set_generatedProblems parsed p in
  if truthy (Some (generatedProblems p)) then
    match get (Some (generatedProblems p)) "length" with
    | Throw e => turn p (Settled (Rejected e))
    | Ok len =>
        match gt_zero len with
        | None => turn p Unmodelled
        | Some true => generate_show formData p
        | Some false => generate_empty response p
        end
    end
  else generate_empty response p.

(** Lines 83-98: [fetch] has settled.  Nothing catches a rejection. *)
Definition generate_fetched (formData : FormData) (s : Settlement) (p : Page)
  : Turn :=
  match s with
  | Failed => turn p (Settled (Rejected NetworkFailure))
  | Responded r =>
      let response := new_response r in
      let p := set_loader_hidden true p in
      let p := set_generate_busy false p in
      if ok (reply response) then
        let '(response, promise) := json response in
        turn p
          (AwaitBody promise
             (fun settled p =>
                match settled with
                | Throw e => turn p (Settled (Rejected e))
                | Ok parsed => generate_parsed formData response parsed p
                end))
      else
        turn (displayMessage
                (Some (JStr "Error generating problems. Check server console."))
                "error" p)
             (Settled Fulfilled)
  end.

(** The submit listener of the generate form (lines 74-99).  The call of
    [e.preventDefault()], here and in the other submit listeners, keeps the
    browser from navigating and changes nothing on the page. *)
Definition generateForm_submit (p : Page) : Turn :=
  let p := set_loader_hidden false p in
  let p := set_verificationSection_hidden true p in
  let p := set_problemSelectorContainer_hidden true p in
  let p := set_statusContainer [] p in
  let p := set_generate_busy true p in
  let formData := generateForm p in
  fetch (POST "/generate" formData) p (generate_fetched formData).

(** Modelled from the spec: the markup of the commit form is missing; the
    entries of its [FormData] are the fields the spec lists for [/commit]
    (title, topic, belt, readme, solution), with the current values of the
    review form. *)
Definition commitForm_data (f : ReviewForm) : FormData :=
  [("title", problem_title f); ("topic", verify_topic f);
   ("belt", verify_belt f); ("readme", readme_content f);
   ("solution", solution_content f)].

(** [commitForm.reset()]: every control goes back to the default value the
    markup gives it ([review_defaults], a constant of the page). *)
Definition commitForm_reset (p : Page) : Page :=
  set_review (review_defaults p) p.

(** Lines 107-113 of the commit handler: the body has been parsed. *)
Definition commit_parsed (response : Response) (result : JSON) (p : Page)
  : Turn :=
  if ok (reply response) then
    match get (Some result) "message" with
    | Throw e => turn p (Settled (Rejected e))
    | Ok message =>
        let p := displayMessage message "success" p in
        let p := set_verificationSection_hidden true p in
        let p := set_problemSelectorContainer_hidden true p in
        let p := commitForm_reset p in
        turn p (Settled Fulfilled)
    end
  else
    match get (Some result) "message" with
    | Throw e => turn p (Settled (Rejected e))
    | Ok message => turn (displayMessage message "error" p) (Settled Fulfilled)
    end.

(** Lines 106-113: [fetch] has settled. *)
Definition commit_fetched (s : Settlement) (p : Page) : Turn :=
  match s with
  | Failed => turn p (Settled (Rejected NetworkFailure))
  | Responded r =>
      let response := new_response r in
      let p := set_commit_busy false p in
      let '(response, promise) := json response in
      turn p
        (AwaitBody promise
           (fun settled p =>
              match settled with
              | Throw e => turn p (Settled (Rejected e))
              | Ok result => commit_parsed response result p
              end))
  end.

(** The submit listener of the commit form (lines 101-114). *)
Definition commitForm_submit (p : Page) : Turn :=
  let p := set_commit_busy true p in
  let formData := commitForm_data (review p) in
  fetch (POST "/commit" formData) p commit_fetched.

(** The change listener of the belt selector of the delete form (lines
    116-119): the call of [fetchProblemsForBelt] is not awaited. *)
Definition deleteBeltSelector_change (p : Page) : Turn :=
  let selectedBelt := deleteBeltSelector p in
  if truthy (Some (JStr selectedBelt)) then
    match fetchProblemsForBelt selectedBelt p with
    | turn p child => turn p (Fork child (Settled Fulfilled))
    end
  else turn p (Settled Fulfilled).

(** The entries a [<select>] contributes to a [FormData]: its selected
    option, unless the control is disabled. *)
Definition select_entries (name : string) (sel : Select) : FormData :=
  if disabled sel then []
  else match selectedIndex sel with
       | Some i =>
           match nth_error (options sel) i with
           | Some o => [(name, opt_value o)]
           | None => []
           end
       | None => []
       end.

(** Modelled from the spec: the markup of the delete form is missing; its
    two selectors carry the names the spec lists for [/delete] (belt,
    problem). *)
Definition deleteForm_data (p : Page) : FormData :=
  ("belt", deleteBeltSelector p)
    :: select_entries "problem" (deleteProblemSelector p).

(** Lines 128-132 of the delete handler: the body has been parsed. *)
Definition delete_parsed (response : Response) (result : JSON) (p : Page)
  : Turn :=
  if ok (reply response) then
    match get (Some result) "message" with
    | Throw e => turn p (Settled (Rejected e))
    | Ok message =>
        let p := displayMessage message "success" p in
        match fetchProblemsForBelt (deleteBeltSelector p) p with
        | turn p child => turn p (Fork child (Settled Fulfilled))
        end
    end
  else
    match get (Some result) "message" with
    | Throw e => turn p (Settled (Rejected e))
    | Ok message => turn (displayMessage message "error" p) (Settled Fulfilled)
    end.

(** Lines 127-132: [fetch] has settled. *)
Definition delete_fetched (s : Settlement) (p : Page) : Turn :=
  match s with
  | Failed => turn p (Settled (Rejected NetworkFailure))
  | Responded r =>
      let response := new_response r in
      let p := set_deleteBtn_busy false p in
      let '(response, promise) := json response in
      turn p
        (AwaitBody promise
           (fun settled p =>
              match settled with
              | Throw e => turn p (Settled (Rejected e))
              | Ok result => delete_parsed response result p
              end))
  end.

(** The submit listener of the delete form (lines 121-133); [confirmed] is
    the answer to the [confirm] dialog. *)
Definition deleteForm_submit (confirmed : bool) (p : Page) : Turn :=
  if negb confirmed then turn p (Settled Fulfilled)
  else
    let p := set_deleteBtn_busy true p in
    let formData := deleteForm_data p in
    fetch (POST "/delete" formData) p delete_fetched.

(** ** Running a handler *)

(** How a call stands when the run stops: over, still waiting for a
    settlement that never came, or outside the modelled fragment. *)
Inductive Status : Type :=
| Finished (o : Outcome)
| Pending
| OutOfModel.

(** What a run leaves: the page, the status of the call, the statuses of
    the calls it forked, and the settlements nobody consumed. *)
Record Run : Type := mkRun {
  final : Page;
  status : Status;
  children : list Status;
  unread : list Settlement
}.

(** [run t net p]: the task [t] resumed on page [p] with no other event in
    between; [net] holds the settlements of the requests, in the order the
    requests are awaited.  A forked call resumes after its caller. *)
Fixpoint run (t : Task) (net : list Settlement) (p : Page) : Run :=
  match t with
  | Settled o => mkRun p (Finished o) [] net
  | AwaitFetch _ k =>
      match net with
      | [] => mkRun p Pending [] []
      | s :: net' =>
          match k s p with
          | turn p' t' => run t' net' p'
          end
      end
  | AwaitBody promise k =>
      match k promise p with
      | turn p' t' => run t' net p'
      end
  | Fork child rest =>
      let r1 := run rest net p in
      let r2 := run child (unread r1) (final r1) in
      mkRun (final r2) (status r1) (children r1 ++ status r2 :: children r2)
        (unread r2)
  | Unmodelled => mkRun p OutOfModel [] net
  end.

(** A turn followed to the end of its task. *)
Definition resume (x : Turn) (net : list Settlement) : Run :=
  match x with
  | turn p t => run t net p
  end.

(** An event delivered to a listener, followed to the end. *)
Definition fire (listener : Page -> Turn) (net : list Settlement) (p : Page)
  : Run :=
  resume (listener p) net.

(** ** Data of the specification *)

(** A problem draft, as the generation endpoint describes it. *)
Record Problem : Type := mkProblem {
  title : string;
  topic : string;
  readme : string;
  solution : string
}.

Definition problem_json (d : Problem) : JSON :=
  JObj [("title", JStr (title d)); ("topic", JStr (topic d));
        ("readme", JStr (readme d)); ("solution", JStr (solution d))].

(** The label of option [i]: the title, or [Problem {i+1}] for a draft
    with an empty title. *)
Definition option_label (i : nat) (d : Problem) : string :=
  if String.eqb (title d) "" then ("Problem " ++ nat_to_string (i + 1))%string
  else title d.

(** One option per draft, numbered from [i]. *)
Fixpoint problem_options (i : nat) (ds : list Problem) : list OptionEl :=
  match ds with
  | [] => []
  | d :: rest =>
      Option2 (option_label i d) (nat_to_string i)
        :: problem_options (S i) rest
  end.

(** A server message [{ "message": m }], possibly among other members. *)
Definition carries_message (members : list (string * JSON)) (m : string)
  : Prop :=
  lookup "message" members = Some (JStr m).

(** A page as it is first shown: nothing generated, no belt chosen, the
    problem selector of the delete form disabled. *)
Definition first_page : Page :=
  mkPage true true true [] false false false true
    [("belt", "white"); ("count", "2")]
    (mkSelect [] None false)
    blank_review blank_review
    ""
    (mkSelect [Option2 "-- Select a belt first --" ""] (Some 0) true)
    (JArr [])
    [].

(** ** Invariants of a task *)

Scheme Task_mut := Induction for Task Sort Prop
  with Turn_mut := Induction for Turn Sort Prop.

(** [keeps I t]: every turn of [t] that starts on a page satisfying [I]
    ends on a page satisfying [I], whatever the settlements are. *)
Fixpoint keeps (I : Page -> Prop) (t : Task) : Prop :=
  match t with
  | Settled _ => True
  | AwaitFetch _ k =>
      forall s p, I p -> match k s p with turn q t' => I q /\ keeps I t' end
  | AwaitBody promise k =>
      forall p, I p -> match k promise p with turn q t' => I q /\ keeps I t' end
  | Fork child rest => keeps I child /\ keeps I rest
  | Unmodelled => True
  end.

(** [keeps] for the turn a function returns. *)
Definition turn_keeps (I : Page -> Prop) (x : Turn) : Prop :=
  I (page_of x) /\ keeps I (task_of x).

(** The cleanup of the generate handler: loader hidden, busy flag gone. *)
Definition cleaned (p : Page) : Prop :=
  loader_hidden p = true /\ generate_busy p = false.

Definition cleans_up (r : Run) : Prop := cleaned (final r).

(** A failure reported to the user: the call ends normally and a status
    message is on the page. *)
Definition reports_failure (r : Run) : Prop :=
  status r = Finished Fulfilled /\ statusContainer (final r) <> [].

(** The part of the page the refresh of the delete form leaves alone. *)
Definition refresh_frame (msgs : list Message) (busy : bool)
  (log : list Request) (p : Page) : Prop :=
  statusContainer p = msgs /\ deleteBtn_busy p = busy /\ sent p = log.

(** The review form a call of [populateVerificationForm] returns with. *)
Definition review_of_result (r : Result Page) : option ReviewForm :=
  match r with
  | Ok p => Some (review p)
  | Throw _ => None
  end.

(** Two drafts, the second without a title, and a page that holds them. *)
Definition two_drafts : list Problem :=
  [mkProblem "Two Sum" "arrays" "# Two Sum" "def two_sum(): pass";
   mkProblem "" "dp" "# Stairs" "def climb(): pass"].

Definition batch_page : Page :=
  set_generatedProblems (JArr (map problem_json two_drafts)) first_page.

(** A page on which the first of [two_drafts] is under review. *)
Definition reviewing_page : Page :=
  set_review
    (mkReview "Two Sum" "arrays" "white" "# Two Sum" "def two_sum(): pass")
    (set_verificationSection_hidden false
       (set_problemSelectorContainer_hidden false batch_page)).

(** A page of the delete tab: belt [white] chosen, its problems [p1] and
    [p2] loaded, [p1] selected. *)
Definition deleting_page : Page :=
  mkPage true true true [] false false false false
    [("belt", "white"); ("count", "2")]
    (mkSelect [] None false)
    blank_review blank_review
    "white"
    (mkSelect [Option4 "-- Select a problem --" "" true true;
               Option2 "p1" "p1"; Option2 "p2" "p2"] (Some 1) false)
    (JArr [])
    [GET "/problems/white"].

(** ** The tab bar *)

(** A link of class [tab-link]: its [data-tab] attribute ([None] when the
    attribute is missing) and whether it carries the class [active]. *)
Record TabLink : Type := mkTabLink {
  data_tab : option string;
  link_active : bool
}.

(** An element of class [tab-panel]: its id and whether it carries the
    class [hidden]. *)
Record TabPanel : Type := mkTabPanel {
  panel_id : string;
  panel_hidden : bool
}.

(** The two node lists read when the script starts (lines 12-13). *)
Record TabBar : Type := mkTabBar {
  tabLinks : list TabLink;
  tabPanels : list TabPanel
}.

(** [link.classList.remove('active')] *)
Definition remove_active (l : TabLink) : TabLink :=
  mkTabLink (data_tab l) false.

(** [classList.add('active')] on the link at a position. *)
Fixpoint add_active (i : nat) (links : list TabLink) : list TabLink :=
  match links, i with
  | [], _ => []
  | l :: rest, O => mkTabLink (data_tab l) true :: rest
  | l :: rest, S j => l :: add_active j rest
  end.

(** [panel.id !== targetTab], where [targetTab] is a string or [null]. *)
Definition differs (id : string) (targetTab : option string) : bool :=
  match targetTab with
  | Some t => negb (String.eqb id t)
  | None => true
  end.

(** [switchTab(e)] (lines 19-26).  [currentTarget] is the position in
    [tabLinks] of the link the listener was called on (line 71 registers
    the listener on these links only); the result is [None] when there is
    no such link, an event that cannot occur. *)
Definition switchTab (currentTarget : nat) (tabs : TabBar) (p : Page)
  : option (TabBar * Page) :=
  match nth_error (tabLinks tabs) currentTarget with
  | None => None
  | Some link =>
      let targetTab := data_tab link in
      let links := map remove_active (tabLinks tabs) in
      let links := add_active currentTarget links in
      let panels :=
        map (fun panel =>
               mkTabPanel (panel_id panel) (differs (panel_id panel) targetTab))
            (tabPanels tabs) in
      Some (mkTabBar links panels, set_statusContainer [] p)
  end.

(** The panels a tab bar shows. *)
Definition visible_panels (tabs : TabBar) : list string :=
  map panel_id (filter (fun panel => negb (panel_hidden panel)) (tabPanels tabs)).

(** The positions of the links marked active. *)
Fixpoint active_positions (i : nat) (links : list TabLink) : list nat :=
  match links with
  | [] => []
  | l :: rest =>
      if link_active l then i :: active_positions (S i) rest
      else active_positions (S i) rest
  end.

(** ** What the user does between two events *)

(** The user picks the option at position [i] of a drop-down. *)
Definition select_choose (i : nat) (sel : Select) : Select :=
  mkSelect (options sel) (Some i) (disabled sel).

Definition choose_problem (i : nat) (p : Page) : Page :=
  set_problemSelector (select_choose i (problemSelector p)) p.

(** ** Frames *)

(** The delete form and the commit button, which the generate handler has
    no business with. *)
Definition delete_form_same (p q : Page) : Prop :=
  deleteBeltSelector q = deleteBeltSelector p /\
  deleteProblemSelector q = deleteProblemSelector p /\
  deleteBtn_disabled q = deleteBtn_disabled p /\
  deleteBtn_busy q = deleteBtn_busy p /\
  commit_busy q = commit_busy p.

(** The generate and review side of the page, which the delete form has no
    business with. *)
Definition review_side_same (p q : Page) : Prop :=
  generatedProblems q = generatedProblems p /\
  problemSelector q = problemSelector p /\
  review q = review p /\
  verificationSection_hidden q = verificationSection_hidden p /\
  problemSelectorContainer_hidden q = problemSelectorContainer_hidden p /\
  loader_hidden q = loader_hidden p /\
  generate_busy q = generate_busy p /\
  commit_busy q = commit_busy p.

(** The messages of [p] are still displayed on [q], in front of whatever
    was displayed since. *)
Definition keeps_messages (p q : Page) : Prop :=
  exists more, statusContainer q = statusContainer p ++ more.

(** A tab bar with three tabs, the first shown. *)
Definition three_tabs : TabBar :=
  mkTabBar
    [mkTabLink (Some "generate") true; mkTabLink (Some "commit") false;
     mkTabLink (Some "delete") false]
    [mkTabPanel "generate" false; mkTabPanel "commit" true;
     mkTabPanel "delete" true].

(** ** Properties that survive the writes of a handler *)

(** [I] survives every write the generate handler makes after its request
    has left. *)
Definition survives_generate (I : Page -> Prop) : Prop :=
  forall q, I q ->
    (forall b, I (set_loader_hidden b q)) /\
    (forall b, I (set_generate_busy b q)) /\
    (forall v, I (set_generatedProblems v q)) /\
    (forall sel, I (set_problemSelector sel q)) /\
    (forall b, I (set_problemSelectorContainer_hidden b q)) /\
    (forall b, I (set_verificationSection_hidden b q)) /\
    (forall f, I (set_review f q)) /\
    (forall m t, I (displayMessage m t q)).

(** [I] survives every write the commit handler makes after its request
    has left. *)
Definition survives_commit (I : Page -> Prop) : Prop :=
  forall q, I q ->
    (forall b, I (set_commit_busy b q)) /\
    (forall b, I (set_problemSelectorContainer_hidden b q)) /\
    (forall b, I (set_verificationSection_hidden b q)) /\
    (forall f, I (set_review f q)) /\
    (forall m t, I (displayMessage m t q)).

(** [I] survives every write [fetchProblemsForBelt] makes after its request
    has left. *)
Definition survives_refresh (I : Page -> Prop) : Prop :=
  forall q, I q ->
    (forall sel, I (set_deleteProblemSelector sel q)) /\
    (forall b, I (set_deleteBtn_disabled b q)).

(** The settlements after which no batch reaches the generate handler: no
    answer at all, a network failure, a non-2xx answer, or a 2xx answer
    whose body is not JSON. *)
Definition no_batch_arrives (net : list Settlement) : Prop :=
  net = [] \/
  exists rest,
    net = Failed :: rest \/
    (exists b, net = Responded (mkReply false b) :: rest) \/
    net = Responded (mkReply true None) :: rest.

(** The settlements that give a handler nothing it can read a message
    from: a network failure, a body that is not JSON, or the JSON value
    [null]. *)
Inductive unreadable : Settlement -> Error -> Prop :=
| unreadable_network : unreadable Failed NetworkFailure
| unreadable_syntax (o : bool) :
    unreadable (Responded (mkReply o None)) JsonSyntax
| unreadable_null (o : bool) :
    unreadable (Responded (mkReply o (Some JNull))) NotAnObject.

(** [I] survives every write the delete handler makes, the writes of the
    refresh it starts included. *)
Definition survives_delete (I : Page -> Prop) : Prop :=
  survives_refresh I /\
  forall q, I q ->
    (forall b, I (set_deleteBtn_busy b q)) /\
    (forall l, I (set_sent l q)) /\
    (forall m t, I (displayMessage m t q)).

(** What the commit handler leaves alone, whatever the answer. *)
Definition commit_frame (p q : Page) : Prop :=
  generatedProblems q = generatedProblems p /\
  problemSelector q = problemSelector p /\
  loader_hidden q = loader_hidden p /\
  generate_busy q = generate_busy p /\
  deleteBeltSelector q = deleteBeltSelector p /\
  deleteProblemSelector q = deleteProblemSelector p /\
  deleteBtn_disabled q = deleteBtn_disabled p /\
  deleteBtn_busy q = deleteBtn_busy p.

(** The busy flag an unreadable answer leaves on the button that sent the
    request: still set after a network failure, cleared otherwise. *)
Definition busy_after (s : Settlement) : bool :=
  match s with
  | Failed => true
  | Responded _ => false
  end.

(** * Properties *)

(** ** Decimal indices *)

Lemma nat_to_uint_nonnil (n : nat) : Nat.to_uint n <> Nil.
Proof.
  rewrite <- (DecimalNat.Unsigned.of_to n) at 1.
  rewrite DecimalNat.Unsigned.to_of. apply unorm_nonnil.
Qed.

Lemma array_index_nat_to_string (n : nat) :
  array_index (nat_to_string n) = Some n.
Proof.
  unfold array_index, nat_to_string.
  rewrite NilZero.usu by apply nat_to_uint_nonnil.
  rewrite DecimalNat.Unsigned.of_to. now rewrite String.eqb_refl.
Qed.

Lemma nat_to_string_not_length (n : nat) :
  String.eqb (nat_to_string n) "length" = false.
Proof.
  apply String.eqb_neq. intro E.
  pose proof (NilZero.usu (Nat.to_uint n) (nat_to_uint_nonnil n)) as U.
  unfold nat_to_string in E. rewrite E in U. discriminate U.
Qed.

Lemma Z_to_string_of_nat (n : nat) : Z_to_string (Z.of_nat n) = nat_to_string n.
Proof.
  unfold Z_to_string.
  destruct (Z.ltb_spec (Z.of_nat n) 0) as [H|H]; [lia|].
  now rewrite Nat2Z.id.
Qed.

(** ** The run of a task that keeps an invariant *)

Lemma run_keeps (I : Page -> Prop) (t : Task) :
  forall net p, keeps I t -> I p -> I (final (run t net p)).
Proof.
  induction t using Task_mut
    with (P0 := fun x => forall net, keeps I (task_of x) -> I (page_of x) ->
                         I (final (run (task_of x) net (page_of x))));
    simpl; intros net; auto.
  - intros p K Hp. destruct net as [|s net]; simpl; auto.
    specialize (K s p Hp). specialize (H s p net).
    destruct (k s p) as [q t']. destruct K. simpl in H. auto.
  - intros p K Hp. specialize (K p Hp). specialize (H promise p net).
    destruct (k promise p) as [q t']. destruct K. simpl in H. auto.
  - intros p [Kc Kr] Hp. auto.
Qed.

Lemma run_fetch req k s net p :
  run (AwaitFetch req k) (s :: net) p = resume (k s p) net.
Proof. reflexivity. Qed.

Lemma run_body promise k net p :
  run (AwaitBody promise k) net p = resume (k promise p) net.
Proof. reflexivity. Qed.

Lemma resume_keeps (I : Page -> Prop) (x : Turn) (net : list Settlement) :
  turn_keeps I x -> I (final (resume x net)).
Proof. destruct x as [p t]. intros [Hp K]. simpl. now apply run_keeps. Qed.

(** ** populateVerificationForm *)

Lemma populate_frame idx p q :
  populateVerificationForm idx p = Ok q ->
  q = p \/ exists f, q = set_review f p.
Proof.
  unfold populateVerificationForm.
  destruct (get _ _) as [problem|e]; [|discriminate].
  destruct (negb (truthy problem)).
  - intros [= <-]. now left.
  - destruct problem as [item|]; intros [= <-]; [right; eauto | now left].
Qed.

(** ** The generate handler *)

Lemma generate_show_cleaned formData p :
  cleaned p -> turn_keeps cleaned (generate_show formData p).
Proof.
  unfold generate_show, turn_keeps, cleaned. intros [L B].
  destruct (generatedProblems _); simpl; auto.
  destruct (forEach _ _ _ _) as [sel [u|e]]; simpl; auto.
  destruct (populateVerificationForm _ _) as [q|e] eqn:P; simpl; auto.
  apply populate_frame in P as [->|[f ->]]; simpl; auto.
Qed.

Lemma generate_empty_cleaned response p :
  cleaned p -> turn_keeps cleaned (generate_empty response p).
Proof.
  unfold generate_empty, turn_keeps, cleaned. intros [L B].
  destruct (json response) as [response' promise]. simpl. split; auto.
  intros q [Lq Bq].
  destruct promise as [result|e]; [|simpl; auto].
  destruct result; simpl; auto.
Qed.

Lemma generate_parsed_cleaned formData response parsed p :
  cleaned p -> turn_keeps cleaned (generate_parsed formData response parsed p).
Proof.
  intros C. unfold generate_parsed.
  assert (C' : cleaned (set_generatedProblems parsed p)) by (destruct C; split; auto).
  destruct (truthy _); [|now apply generate_empty_cleaned].
  destruct (get _ _) as [len|e]; [|split; simpl; auto].
  destruct (gt_zero len) as [[|]|].
  - now apply generate_show_cleaned.
  - now apply generate_empty_cleaned.
  - split; simpl; auto.
Qed.

Lemma generate_fetched_cleaned formData r p :
  turn_keeps cleaned (generate_fetched formData (Responded r) p).
Proof.
  unfold generate_fetched, json, new_response, turn_keeps. simpl.
  destruct (ok r); simpl; [|repeat split; auto].
  split; [split; auto|].
  intros q C. destruct (body r) as [parsed|]; [|simpl; auto].
  apply (generate_parsed_cleaned formData (mkResponse r true) parsed q) in C.
  destruct (generate_parsed _ _ _ _). exact C.
Qed.

(** C1, as stated, fails: when [fetch] rejects, the loading indicator stays
    visible, the busy flag stays set, the call is rejected and no status
    message is displayed. *)
Lemma generate_network_failure_counterexample :
  ~ cleans_up (fire generateForm_submit [Failed] first_page) /\
  ~ reports_failure (fire generateForm_submit [Failed] first_page).
Proof.
  split.
  - intros [L _]. vm_compute in L. discriminate L.
  - intros [S _]. vm_compute in S. discriminate S.
Qed.

(** C1 (amended): whenever [fetch] resolves with a response, 2xx or not and
    whatever its body, the generate handler ends with the loading indicator
    hidden and the busy flag of its button cleared.  When [fetch] rejects,
    nothing catches the rejection: the call is rejected with the network
    error, no status message is displayed, and the loading indicator and
    the busy flag stay as the handler set them before the request. *)
Theorem generate_cleanup_when_fetch_resolves (p : Page) (net : list Settlement) :
  (forall r, cleans_up (fire generateForm_submit (Responded r :: net) p)) /\
  (let r := fire generateForm_submit (Failed :: net) p in
   status r = Finished (Rejected NetworkFailure) /\
   loader_hidden (final r) = false /\
   generate_busy (final r) = true /\
   statusContainer (final r) = []).
Proof.
  split.
  - intros r. unfold cleans_up, fire, generateForm_submit, fetch, resume.
    rewrite run_fetch.
    apply resume_keeps, generate_fetched_cleaned.
  - repeat split.
Qed.

(** C2 (failing input): a 2xx response whose body is the empty list.  The
    handler reads the body a second time to find the message; that read
    rejects, so the call is rejected and nothing is displayed.  The review
    section and the selector stay hidden. *)
Theorem generate_empty_list_displays_nothing (p : Page) (net : list Settlement) :
  let r := fire generateForm_submit
             (Responded (mkReply true (Some (JArr []))) :: net) p in
  status r = Finished (Rejected BodyAlreadyRead) /\
  statusContainer (final r) = [] /\
  verificationSection_hidden (final r) = true /\
  problemSelectorContainer_hidden (final r) = true.
Proof. repeat split. Qed.

Lemma generate_show_silent formData p :
  statusContainer p = [] ->
  turn_keeps (fun q => statusContainer q = []) (generate_show formData p).
Proof.
  unfold generate_show, turn_keeps. intros S.
  destruct (generatedProblems _); simpl; auto.
  destruct (forEach _ _ _ _) as [sel [u|e]]; simpl; auto.
  destruct (populateVerificationForm _ _) as [q|e] eqn:P; simpl; auto.
  apply populate_frame in P as [->|[f ->]]; simpl; auto.
Qed.

Lemma generate_empty_silent response p :
  bodyUsed response = true ->
  statusContainer p = [] ->
  turn_keeps (fun q => statusContainer q = []) (generate_empty response p).
Proof.
  unfold generate_empty, json, turn_keeps. intros U S. rewrite U.
  simpl. auto.
Qed.

(** No 2xx response ever displays a message: the branch that would is
    behind the second read of the body. *)
Lemma generate_2xx_never_displays (p : Page) (b : option JSON)
  (net : list Settlement) :
  statusContainer
    (final (fire generateForm_submit (Responded (mkReply true b) :: net) p))
  = [].
Proof.
  unfold fire, generateForm_submit, fetch, resume. rewrite run_fetch.
  apply (resume_keeps (fun q => statusContainer q = [])).
  unfold generate_fetched, json, new_response, turn_keeps.
  cbn [ok reply body bodyUsed page_of task_of]. split; [reflexivity|].
  intros q S. destruct b as [parsed|]; [|simpl; auto].
  unfold generate_parsed.
  assert (S' : statusContainer (set_generatedProblems parsed q) = [])
    by exact S.
  destruct (truthy _).
  - destruct (get _ _) as [len|e]; [|simpl; auto].
    destruct (gt_zero len) as [[|]|]; [| |simpl; auto].
    + apply (generate_show_silent (generateForm p)) in S'.
      destruct (generate_show _ _). exact S'.
    + apply (generate_empty_silent (mkResponse (mkReply true (Some parsed)) true))
        in S'; [|reflexivity].
      destruct (generate_empty _ _). exact S'.
  - apply (generate_empty_silent (mkResponse (mkReply true (Some parsed)) true))
      in S'; [|reflexivity].
    destruct (generate_empty _ _). exact S'.
Qed.

(** The other half of C2 holds: a non-2xx response displays the generic
    error and reveals nothing. *)
Lemma generate_non_2xx_generic_error (p : Page) (b : option JSON)
  (net : list Settlement) :
  let r := fire generateForm_submit (Responded (mkReply false b) :: net) p in
  status r = Finished Fulfilled /\
  statusContainer (final r)
  = [mkMessage "Error generating problems. Check server console." "error"] /\
  verificationSection_hidden (final r) = true /\
  problemSelectorContainer_hidden (final r) = true.
Proof. repeat split. Qed.

(** A 2xx response that carries a message object fares no better than the
    empty list. *)
Lemma generate_message_object_displays_nothing (p : Page) (m : string)
  (net : list Settlement) :
  let r := fire generateForm_submit
             (Responded (mkReply true (Some (JObj [("message", JStr m)]))) :: net)
             p in
  status r = Finished (Rejected BodyAlreadyRead) /\
  statusContainer (final r) = [].
Proof. repeat split. Qed.

Lemma forEach_problem_options (ds : list Problem) :
  forall i sel,
    exists sel',
      forEach add_problem_option (map problem_json ds) i sel = (sel', Ok tt) /\
      options sel' = options sel ++ problem_options i ds /\
      disabled sel' = disabled sel.
Proof.
  induction ds as [|d ds IH]; intros i sel.
  - exists sel. simpl. now rewrite List.app_nil_r.
  - cbn [map forEach].
    assert (E : add_problem_option (problem_json d) i sel
                = (select_add (Option2 (option_label i d) (nat_to_string i)) sel,
                   Ok tt)).
    { unfold add_problem_option, option_label. simpl.
      destruct (String.eqb (title d) ""); reflexivity. }
    rewrite E.
    destruct (IH (S i) (select_add (Option2 (option_label i d) (nat_to_string i)) sel))
      as (sel' & F & O & D).
    exists sel'. rewrite F, O. simpl. rewrite <- List.app_assoc. auto.
Qed.

Lemma problem_options_length (ds : list Problem) :
  forall i, List.length (problem_options i ds) = List.length ds.
Proof. induction ds; simpl; auto. Qed.

Lemma fire_generate_2xx (p : Page) (v : JSON) (net : list Settlement) :
  fire generateForm_submit (Responded (mkReply true (Some v)) :: net) p
  = resume
      (generate_parsed (generateForm p)
         (mkResponse (mkReply true (Some v)) true) v
         (set_generate_busy false
            (set_loader_hidden true (page_of (generateForm_submit p)))))
      net.
Proof. destruct p. reflexivity. Qed.

Lemma generate_parsed_batch formData response (d : Problem) (ds : list Problem) p :
  generate_parsed formData response (JArr (map problem_json (d :: ds))) p
  = generate_show formData
      (set_generatedProblems (JArr (map problem_json (d :: ds))) p).
Proof. reflexivity. Qed.

Lemma populate_first (d : Problem) (ds : list Problem) p :
  generatedProblems p = JArr (map problem_json (d :: ds)) ->
  populateVerificationForm (Some (JNum 0)) p
  = Ok (set_review
          (mkReview (title d) (topic d) (verify_belt (review p))
             (readme d) (solution d)) p).
Proof. unfold populateVerificationForm. intros ->. reflexivity. Qed.

Lemma generate_show_batch formData (d : Problem) (ds : list Problem) p :
  generatedProblems p = JArr (map problem_json (d :: ds)) ->
  exists q,
    generate_show formData p = turn q (Settled Fulfilled) /\
    options (problemSelector q) = problem_options 0 (d :: ds) /\
    problemSelectorContainer_hidden q = false /\
    verificationSection_hidden q = false /\
    review q
    = mkReview (title d) (topic d)
        (match form_get "belt" formData with Some v => v | None => "" end)
        (readme d) (solution d) /\
    generatedProblems q = generatedProblems p.
Proof.
  intros G. unfold generate_show.
  cbn [generatedProblems set_problemSelector problemSelector].
  rewrite G.
  destruct (forEach_problem_options (d :: ds) 0 (select_clear (problemSelector p)))
    as (sel' & F & O & _).
  rewrite F. cbv beta iota zeta.
  erewrite populate_first by (simpl; exact G).
  eexists. split; [reflexivity|].
  simpl. rewrite O. auto 10.
Qed.

(** C3: a 2xx response with the drafts [d :: ds] replaces the batch, gives
    the selector exactly one option per draft, labelled by the title or by
    [Problem {i+1}], reveals the selector and the review section, fills the
    review form from the first draft and copies the submitted belt into the
    belt field. *)
Theorem generate_success_populates (p : Page) (net : list Settlement)
  (d : Problem) (ds : list Problem) :
  let batch := d :: ds in
  let r := fire generateForm_submit
             (Responded (mkReply true (Some (JArr (map problem_json batch))))
                :: net) p in
  status r = Finished Fulfilled /\
  generatedProblems (final r) = JArr (map problem_json batch) /\
  options (problemSelector (final r)) = problem_options 0 batch /\
  List.length (options (problemSelector (final r))) = List.length batch /\
  problemSelectorContainer_hidden (final r) = false /\
  verificationSection_hidden (final r) = false /\
  problem_title (review (final r)) = title d /\
  verify_topic (review (final r)) = topic d /\
  readme_content (review (final r)) = readme d /\
  solution_content (review (final r)) = solution d /\
  (forall belt,
      form_get "belt" (generateForm p) = Some belt ->
      verify_belt (review (final r)) = belt).
Proof.
  intros batch r.
  destruct (generate_show_batch (generateForm p) d ds
              (set_generatedProblems (JArr (map problem_json batch))
                 (set_generate_busy false
                    (set_loader_hidden true (page_of (generateForm_submit p))))))
    as (q & E & O & C & V & R & G); [reflexivity|].
  assert (Er : r = mkRun q (Finished Fulfilled) [] net).
  { subst r batch. now rewrite fire_generate_2xx, generate_parsed_batch, E. }
  rewrite Er. clear Er r E. cbv beta iota delta [final status].
  rewrite O, problem_options_length, G, R.
  repeat split; try assumption.
  intros belt B. now rewrite B.
Qed.

Lemma generate_success_populates_witness :
  let r := fire generateForm_submit
             [Responded (mkReply true (Some (JArr (map problem_json two_drafts))))]
             first_page in
  form_get "belt" (generateForm first_page) = Some "white" /\
  options (problemSelector (final r))
  = [Option2 "Two Sum" "0"; Option2 "Problem 2" "1"] /\
  problem_title (review (final r)) = "Two Sum" /\
  verify_belt (review (final r)) = "white".
Proof.
  pose proof (generate_success_populates first_page []
                (mkProblem "Two Sum" "arrays" "# Two Sum" "def two_sum(): pass")
                [mkProblem "" "dp" "# Stairs" "def climb(): pass"])
    as (_ & _ & O & _ & _ & _ & T & _ & _ & _ & B).
  split; [reflexivity|]. split; [exact O|]. split; [exact T|].
  exact (B "white" eq_refl).
Defined.

(** ** populateVerificationForm on a batch of drafts *)

(** C7: with a batch of drafts in [generatedProblems], an index (the number
    passed by a call, or the decimal string a selector option carries) that
    resolves to a draft copies its title, topic, readme and solution into
    the review fields; an index past the end of the batch returns normally
    and leaves the page as it is. *)
Theorem populate_copies_or_ignores (p : Page) (ds : list Problem) (i : nat)
  (idx : Value) :
  generatedProblems p = JArr (map problem_json ds) ->
  idx = Some (JNum (Z.of_nat i)) \/ idx = Some (JStr (nat_to_string i)) ->
  match nth_error ds i with
  | Some d =>
      populateVerificationForm idx p
      = Ok (set_review
              (mkReview (title d) (topic d) (verify_belt (review p))
                 (readme d) (solution d)) p)
  | None => populateVerificationForm idx p = Ok p
  end.
Proof.
  intros G I.
  assert (K : to_property_key idx = nat_to_string i).
  { destruct I as [-> | ->]; simpl; [apply Z_to_string_of_nat | reflexivity]. }
  unfold populateVerificationForm. rewrite K, G.
  unfold get, get_own.
  rewrite nat_to_string_not_length, array_index_nat_to_string, nth_error_map.
  destruct (nth_error ds i) as [d|]; reflexivity.
Qed.

Lemma populate_copies_or_ignores_witness :
  generatedProblems batch_page = JArr (map problem_json two_drafts) /\
  review_of_result (populateVerificationForm (Some (JStr "1")) batch_page)
  = Some (mkReview "" "dp" "" "# Stairs" "def climb(): pass") /\
  populateVerificationForm (Some (JNum 2)) batch_page = Ok batch_page.
Proof.
  split; [reflexivity|]. split.
  - rewrite (populate_copies_or_ignores batch_page two_drafts 1
               (Some (JStr "1")) eq_refl (or_intror eq_refl)).
    reflexivity.
  - exact (populate_copies_or_ignores batch_page two_drafts 2
             (Some (JNum 2)) eq_refl (or_introl eq_refl)).
Defined.

(** A selector without a selected option has the empty string as its
    value, which is no index: the change listener leaves the page alone. *)
Lemma populate_ignores_empty_value (p : Page) (items : list JSON) :
  generatedProblems p = JArr items ->
  populateVerificationForm (Some (JStr "")) p = Ok p.
Proof. unfold populateVerificationForm. intros ->. reflexivity. Qed.

(** ** fetchProblemsForBelt *)

Lemma forEach_names (items : list JSON) :
  forall i sel,
    forEach
      (fun problem (_ : nat) sel =>
         (select_add (Option2 (to_string problem) (to_string problem)) sel,
          Ok tt))
      items i sel
    = (mkSelect
         (options sel
            ++ map (fun x => Option2 (to_string x) (to_string x)) items)
         (match selectedIndex sel, items with
          | None, _ :: _ => Some 0
          | s, _ => s
          end)
         (disabled sel),
       Ok tt).
Proof.
  induction items as [|x items IH]; intros i sel.
  - simpl. rewrite List.app_nil_r. now destruct sel as [o [s|] d].
  - cbn [forEach]. rewrite IH. cbn [select_add options selectedIndex disabled
                                    opt_selected Option2 map].
    rewrite <- List.app_assoc. simpl.
    destruct (selectedIndex sel), items; reflexivity.
Qed.

Lemma fire_fetchProblems_2xx (belt : string) (v : JSON) (net : list Settlement)
  (p : Page) :
  fire (fetchProblemsForBelt belt)
       (Responded (mkReply true (Some v)) :: net) p
  = resume
      (fetchProblemsForBelt_parsed v (page_of (fetchProblemsForBelt belt p)))
      net.
Proof. destruct p. reflexivity. Qed.

Lemma fetchProblems_enabled_only_if (belt : string) (net : list Settlement)
  (p : Page) :
  disabled (deleteProblemSelector (final (fire (fetchProblemsForBelt belt) net p)))
  = false ->
  exists item items rest,
    net = Responded (mkReply true (Some (JArr (item :: items)))) :: rest.
Proof.
  destruct net as [|[[[|] [v|]]|] rest]; try (destruct p; discriminate).
  rewrite fire_fetchProblems_2xx.
  destruct p. unfold fetchProblemsForBelt_parsed.
  destruct v as [ |b|n|s|items|members]; try discriminate.
  - simpl. destruct (Z.ltb 0 _); discriminate.
  - destruct items as [|item items]; [discriminate|]. eauto.
  - simpl. destruct (lookup "length" members) as [[ |b|n|s|items|ms]|];
      try discriminate.
    + destruct b; discriminate.
    + simpl. destruct (Z.ltb 0 n); discriminate.
Qed.

(** C4: what [fetchProblemsForBelt] leaves in the delete form.  A 2xx
    response with the names [name :: names] gives the placeholder followed
    by one option per name and enables the selector and the button; a 2xx
    response with an empty list gives the [No problems found] placeholder,
    a non-2xx response the [Error loading] placeholder, both with the
    selector and the button disabled; and the selector ends up enabled
    only when the server reported at least one problem. *)
Theorem fetchProblemsForBelt_outcomes (p : Page) (belt : string)
  (net : list Settlement) :
  (forall name names,
      let r := fire (fetchProblemsForBelt belt)
                 (Responded (mkReply true (Some (JArr (map JStr (name :: names)))))
                    :: net) p in
      options (deleteProblemSelector (final r))
      = Option4 "-- Select a problem --" "" true true
          :: map (fun n => Option2 n n) (name :: names) /\
      List.length (options (deleteProblemSelector (final r)))
      = S (List.length (name :: names)) /\
      disabled (deleteProblemSelector (final r)) = false /\
      deleteBtn_disabled (final r) = false) /\
  (let r := fire (fetchProblemsForBelt belt)
              (Responded (mkReply true (Some (JArr []))) :: net) p in
   options (deleteProblemSelector (final r))
   = [Option2 "-- No problems found --" ""] /\
   disabled (deleteProblemSelector (final r)) = true /\
   deleteBtn_disabled (final r) = true) /\
  (forall b,
      let r := fire (fetchProblemsForBelt belt)
                 (Responded (mkReply false b) :: net) p in
      options (deleteProblemSelector (final r))
      = [Option2 "-- Error loading --" ""] /\
      disabled (deleteProblemSelector (final r)) = true /\
      deleteBtn_disabled (final r) = true) /\
  (forall net',
      disabled (deleteProblemSelector
                  (final (fire (fetchProblemsForBelt belt) net' p))) = false ->
      exists item items rest,
        net' = Responded (mkReply true (Some (JArr (item :: items)))) :: rest).
Proof.
  split; [|split; [|split]].
  - intros name names r. subst r. rewrite fire_fetchProblems_2xx.
    destruct p. unfold fetchProblemsForBelt_parsed.
    cbn [get get_own String.eqb Ascii.eqb Bool.eqb gt_zero map List.length
         Z.of_nat Z.ltb Z.compare].
    rewrite forEach_names.
    cbn. rewrite List.map_map, List.length_map. auto.
  - destruct p. repeat split.
  - intros b. destruct p. repeat split.
  - intros net'. apply fetchProblems_enabled_only_if.
Qed.

Lemma fetchProblemsForBelt_outcomes_witness :
  let r := fire (fetchProblemsForBelt "white")
             [Responded (mkReply true (Some (JArr (map JStr ["p1"; "p2"]))))]
             first_page in
  options (deleteProblemSelector (final r))
  = [Option4 "-- Select a problem --" "" true true;
     Option2 "p1" "p1"; Option2 "p2" "p2"] /\
  disabled (deleteProblemSelector (final r)) = false /\
  exists item items rest,
    [Responded (mkReply true (Some (JArr (map JStr ["p1"; "p2"]))))]
    = Responded (mkReply true (Some (JArr (item :: items)))) :: rest.
Proof.
  destruct (fetchProblemsForBelt_outcomes first_page "white" [])
    as (A & _ & _ & O).
  destruct (A "p1" ["p2"]) as (Os & _ & D & _).
  split; [exact Os|]. split; [exact D|].
  exact (O [Responded (mkReply true (Some (JArr (map JStr ["p1"; "p2"]))))] D).
Defined.

(** ** The commit handler *)

(** C5: a commit answered 2xx with a message displays it as a success,
    hides the review section and the problem selector and resets the form
    (every field back to its default, the empty string when the defaults
    are blank); answered non-2xx, it displays the message as an error and
    leaves the review fields, the two sections and the selector as they
    were. *)
Theorem commit_outcomes (p : Page) (members : list (string * JSON))
  (m : string) (net : list Settlement) :
  carries_message members m ->
  (let r := fire commitForm_submit
              (Responded (mkReply true (Some (JObj members))) :: net) p in
   status r = Finished Fulfilled /\
   statusContainer (final r) = statusContainer p ++ [mkMessage m "success"] /\
   verificationSection_hidden (final r) = true /\
   problemSelectorContainer_hidden (final r) = true /\
   review (final r) = review_defaults p /\
   (review_defaults p = blank_review -> review (final r) = blank_review)) /\
  (let r := fire commitForm_submit
              (Responded (mkReply false (Some (JObj members))) :: net) p in
   status r = Finished Fulfilled /\
   statusContainer (final r) = statusContainer p ++ [mkMessage m "error"] /\
   review (final r) = review p /\
   verificationSection_hidden (final r) = verificationSection_hidden p /\
   problemSelectorContainer_hidden (final r)
   = problemSelectorContainer_hidden p /\
   problemSelector (final r) = problemSelector p).
Proof.
  unfold carries_message. intros M. destruct p.
  unfold fire, commitForm_submit, fetch, resume. rewrite !run_fetch.
  unfold commit_fetched, json, new_response.
  cbn [ok reply body bodyUsed resume]. rewrite !run_body.
  unfold commit_parsed, get, get_own. cbn [ok reply]. rewrite M.
  cbn. repeat split; auto.
Qed.

Lemma commit_outcomes_witness :
  carries_message [("message", JStr "Committed Two Sum")] "Committed Two Sum" /\
  review
    (final
       (fire commitForm_submit
          [Responded
             (mkReply true (Some (JObj [("message", JStr "Committed Two Sum")])))]
          reviewing_page))
  = blank_review /\
  review
    (final
       (fire commitForm_submit
          [Responded
             (mkReply false (Some (JObj [("message", JStr "Committed Two Sum")])))]
          reviewing_page))
  = review reviewing_page.
Proof.
  pose proof (commit_outcomes reviewing_page
                [("message", JStr "Committed Two Sum")] "Committed Two Sum" []
                eq_refl) as [(_ & _ & _ & _ & _ & R) (_ & _ & K & _)].
  split; [reflexivity|]. split; [exact (R eq_refl) | exact K].
Defined.

Lemma commit_parsed_keeps_batch (g : JSON) response result p :
  generatedProblems p = g ->
  turn_keeps (fun q => generatedProblems q = g) (commit_parsed response result p).
Proof.
  intros G. unfold commit_parsed, turn_keeps.
  destruct (ok (reply response)), (get (Some result) "message");
    simpl; auto.
Qed.

Lemma commit_fetched_keeps_batch (g : JSON) s p :
  generatedProblems p = g ->
  turn_keeps (fun q => generatedProblems q = g) (commit_fetched s p).
Proof.
  intros G. unfold commit_fetched, turn_keeps.
  destruct s as [r|]; [|simpl; auto].
  destruct (json (new_response r)) as [response promise].
  simpl. split; auto.
  intros q Gq. destruct promise as [result|e]; [|simpl; auto].
  apply (commit_parsed_keeps_batch g response result q) in Gq.
  destruct (commit_parsed response result q). exact Gq.
Qed.

(** C9: after any edit of the review form, the commit request carries the
    values the form holds then, and whatever the answer (2xx, non-2xx, a
    network failure, none at all) [generatedProblems] is afterwards what it
    was before the edit. *)
Theorem commit_never_writes_batch (p : Page) (f : ReviewForm)
  (net : list Settlement) :
  let edited := set_review f p in
  generatedProblems edited = generatedProblems p /\
  sent (page_of (commitForm_submit edited))
  = sent p ++ [POST "/commit" (commitForm_data f)] /\
  generatedProblems (final (fire commitForm_submit net edited))
  = generatedProblems p.
Proof.
  intros edited. split; [reflexivity|]. split; [reflexivity|].
  unfold fire, commitForm_submit, fetch, resume.
  apply (run_keeps (fun q => generatedProblems q = generatedProblems p));
    [|reflexivity].
  intros s q G. apply (commit_fetched_keeps_batch _ s q) in G.
  destruct (commit_fetched s q). exact G.
Qed.

(** ** The delete form *)

Lemma fetchProblemsForBelt_parsed_frame msgs busy log problems p :
  refresh_frame msgs busy log p ->
  turn_keeps (refresh_frame msgs busy log)
    (fetchProblemsForBelt_parsed problems p).
Proof.
  unfold refresh_frame, turn_keeps, fetchProblemsForBelt_parsed.
  intros (M & B & L).
  destruct (get (Some problems) "length") as [len|e]; [|simpl; auto].
  destruct (gt_zero len) as [[|]|]; [|simpl; auto|simpl; auto].
  destruct problems; try (simpl; auto).
  destruct (forEach _ _ _ _) as [sel [u|e]]; simpl; auto.
Qed.

Lemma fetchProblemsForBelt_fetched_frame msgs busy log s p :
  refresh_frame msgs busy log p ->
  turn_keeps (refresh_frame msgs busy log) (fetchProblemsForBelt_fetched s p).
Proof.
  intros F. unfold fetchProblemsForBelt_fetched, turn_keeps.
  destruct s as [r|]; [|simpl; auto].
  unfold json, new_response. cbn [reply ok bodyUsed body].
  destruct (ok r).
  - simpl. split; auto.
    intros q Fq. destruct (body r) as [problems|]; [|simpl; auto].
    apply (fetchProblemsForBelt_parsed_frame _ _ _ problems q) in Fq.
    destruct (fetchProblemsForBelt_parsed problems q). exact Fq.
  - destruct F as (M & B & L). unfold refresh_frame. simpl. auto.
Qed.

Lemma fetchProblemsForBelt_frame msgs busy log belt net p :
  refresh_frame msgs busy log p ->
  refresh_frame msgs busy (log ++ [GET ("/problems/" ++ belt)])
    (final (fire (fetchProblemsForBelt belt) net p)).
Proof.
  intros (M & B & L).
  unfold fire, fetchProblemsForBelt, fetch, resume.
  apply run_keeps.
  - intros s q F. apply (fetchProblemsForBelt_fetched_frame _ _ _ s q) in F.
    destruct (fetchProblemsForBelt_fetched s q). exact F.
  - unfold refresh_frame. simpl. rewrite M, B, L. auto.
Qed.

Lemma deleteForm_data_selected (p : Page) (i : nat) (o : OptionEl) :
  disabled (deleteProblemSelector p) = false ->
  selectedIndex (deleteProblemSelector p) = Some i ->
  nth_error (options (deleteProblemSelector p)) i = Some o ->
  deleteForm_data p
  = [("belt", deleteBeltSelector p); ("problem", opt_value o)].
Proof.
  intros D S N. unfold deleteForm_data, select_entries.
  now rewrite D, S, N.
Qed.

Lemma fire_delete_2xx (p : Page) (members : list (string * JSON)) (m : string)
  (net : list Settlement) :
  carries_message members m ->
  fire (deleteForm_submit true)
       (Responded (mkReply true (Some (JObj members))) :: net) p
  = let r := fire (fetchProblemsForBelt (deleteBeltSelector p)) net
               (displayMessage (Some (JStr m)) "success"
                  (set_deleteBtn_busy false
                     (page_of (deleteForm_submit true p)))) in
    mkRun (final r) (Finished Fulfilled) (status r :: children r) (unread r).
Proof.
  unfold carries_message. intros M. destruct p.
  unfold fire, deleteForm_submit, fetch, resume. cbn [negb].
  rewrite run_fetch.
  unfold delete_fetched, json, new_response.
  cbn [ok reply body bodyUsed resume]. rewrite run_body.
  unfold delete_parsed, get, get_own. cbn [ok reply]. rewrite M.
  reflexivity.
Qed.

Lemma fire_delete_non_2xx (p : Page) (members : list (string * JSON))
  (m : string) (net : list Settlement) :
  carries_message members m ->
  fire (deleteForm_submit true)
       (Responded (mkReply false (Some (JObj members))) :: net) p
  = mkRun (displayMessage (Some (JStr m)) "error"
             (set_deleteBtn_busy false (page_of (deleteForm_submit true p))))
          (Finished Fulfilled) [] net.
Proof.
  unfold carries_message. intros M. destruct p.
  unfold fire, deleteForm_submit, fetch, resume. cbn [negb].
  rewrite run_fetch.
  unfold delete_fetched, json, new_response.
  cbn [ok reply body bodyUsed resume]. rewrite run_body.
  unfold delete_parsed, get, get_own. cbn [ok reply]. rewrite M.
  reflexivity.
Qed.

Lemma deleteForm_data_belt (p : Page) :
  form_get "belt" (deleteForm_data p) = Some (deleteBeltSelector p).
Proof. reflexivity. Qed.

(** C6: a confirmed delete sends one request to [/delete] with the entries
    of the delete form, the belt and (from an enabled selector) the
    selected problem, and the busy flag of the delete button is set while
    the request is out.  Once the answer is there the flag is cleared and
    the message of the server is displayed; after a 2xx answer one request
    for the problems of the selected belt follows, after a non-2xx answer
    none. *)
Theorem delete_confirmed (p : Page) (members : list (string * JSON))
  (m : string) (net : list Settlement) :
  carries_message members m ->
  let request := POST "/delete" (deleteForm_data p) in
  let refresh := GET ("/problems/" ++ deleteBeltSelector p) in
  let started := page_of (deleteForm_submit true p) in
  (form_get "belt" (deleteForm_data p) = Some (deleteBeltSelector p) /\
   (forall i o,
       disabled (deleteProblemSelector p) = false ->
       selectedIndex (deleteProblemSelector p) = Some i ->
       nth_error (options (deleteProblemSelector p)) i = Some o ->
       deleteForm_data p
       = [("belt", deleteBeltSelector p); ("problem", opt_value o)])) /\
  (sent started = sent p ++ [request] /\ deleteBtn_busy started = true) /\
  (let r := fire (deleteForm_submit true)
              (Responded (mkReply true (Some (JObj members))) :: net) p in
   status r = Finished Fulfilled /\
   deleteBtn_busy (final r) = false /\
   statusContainer (final r) = statusContainer p ++ [mkMessage m "success"] /\
   sent (final r) = sent p ++ [request; refresh]) /\
  (let r := fire (deleteForm_submit true)
              (Responded (mkReply false (Some (JObj members))) :: net) p in
   status r = Finished Fulfilled /\
   deleteBtn_busy (final r) = false /\
   statusContainer (final r) = statusContainer p ++ [mkMessage m "error"] /\
   sent (final r) = sent p ++ [request]).
Proof.
  intros M request refresh started.
  split; [split; [apply deleteForm_data_belt | apply deleteForm_data_selected]|].
  assert (St : sent started = sent p ++ [request]) by reflexivity.
  split; [split; [exact St | reflexivity]|]. split.
  - intros r. subst r. rewrite (fire_delete_2xx p members m net M).
    cbv zeta. cbn [final status].
    destruct (fetchProblemsForBelt_frame
                (statusContainer p ++ [mkMessage m "success"]) false
                (sent p ++ [request]) (deleteBeltSelector p) net
                (displayMessage (Some (JStr m)) "success"
                   (set_deleteBtn_busy false started)))
      as (Ms & Bs & Ls).
    { unfold refresh_frame. simpl. repeat split. }
    fold started. rewrite Ms, Bs, Ls. rewrite <- List.app_assoc.
    repeat split.
  - intros r. subst r. rewrite (fire_delete_non_2xx p members m net M).
    cbn [final status]. repeat split.
Qed.

Lemma delete_confirmed_witness :
  let r := fire (deleteForm_submit true)
             [Responded (mkReply true (Some (JObj [("message", JStr "Deleted p1")])));
              Responded (mkReply true (Some (JArr [JStr "p2"])))]
             deleting_page in
  carries_message [("message", JStr "Deleted p1")] "Deleted p1" /\
  deleteForm_data deleting_page = [("belt", "white"); ("problem", "p1")] /\
  sent (final r)
  = [GET "/problems/white";
     POST "/delete" [("belt", "white"); ("problem", "p1")];
     GET "/problems/white"] /\
  deleteBtn_busy (final r) = false.
Proof.
  pose proof (delete_confirmed deleting_page
                [("message", JStr "Deleted p1")] "Deleted p1"
                [Responded (mkReply true (Some (JArr [JStr "p2"])))]
                eq_refl)
    as ((_ & F) & _ & (_ & B & _ & L) & _).
  split; [reflexivity|].
  split; [exact (F 1 (Option2 "p1" "p1") eq_refl eq_refl eq_refl)|].
  split; [exact L | exact B].
Defined.

(** C8: a declined confirmation ends the delete handler at once: the page
    is what it was, so no request is logged, no message displayed and no
    flag or selector touched; no settlement is consumed. *)
Theorem delete_declined (p : Page) (net : list Settlement) :
  let r := fire (deleteForm_submit false) net p in
  final r = p /\
  status r = Finished Fulfilled /\
  children r = [] /\
  unread r = net /\
  sent (final r) = sent p /\
  statusContainer (final r) = statusContainer p /\
  deleteBtn_busy (final r) = deleteBtn_busy p /\
  deleteProblemSelector (final r) = deleteProblemSelector p.
Proof. repeat split. Qed.

Lemma belt_change_fetches_when_chosen (p : Page) :
  deleteBeltSelector p <> "" ->
  sent (page_of (deleteBeltSelector_change p))
  = sent p ++ [GET ("/problems/" ++ deleteBeltSelector p)].
Proof.
  intros NE. unfold deleteBeltSelector_change. cbn [truthy].
  destruct (String.eqb_spec (deleteBeltSelector p) "") as [E|_];
    [contradiction|].
  reflexivity.
Qed.

(** C10: when the belt selector of the delete form changes to the empty
    value the listener does nothing: the page, with its problem selector,
    its delete button and its request log, is what it was, and nothing is
    left running.  A request leaves the listener only for a belt that is
    not empty. *)
Theorem belt_change_empty_is_noop (p : Page) (net : list Settlement) :
  deleteBeltSelector p = "" ->
  (let r := fire deleteBeltSelector_change net p in
   final r = p /\
   status r = Finished Fulfilled /\
   children r = [] /\
   unread r = net /\
   sent (final r) = sent p /\
   deleteProblemSelector (final r) = deleteProblemSelector p /\
   deleteBtn_disabled (final r) = deleteBtn_disabled p) /\
  (forall q,
      sent (page_of (deleteBeltSelector_change q)) <> sent q ->
      deleteBeltSelector q <> "").
Proof.
  intros E. split.
  - unfold fire, deleteBeltSelector_change. rewrite E. repeat split.
  - intros q NS Eq. apply NS.
    unfold deleteBeltSelector_change. now rewrite Eq.
Qed.

Lemma belt_change_empty_is_noop_witness :
  deleteBeltSelector first_page = "" /\
  final (fire deleteBeltSelector_change [Failed] first_page) = first_page /\
  deleteBeltSelector deleting_page <> "".
Proof.
  destruct (belt_change_empty_is_noop first_page [Failed] eq_refl)
    as ((F & _) & O).
  split; [reflexivity|]. split; [exact F|].
  apply O. simpl. intro H.
  apply (f_equal (@List.length Request)) in H. discriminate H.
Defined.

(** * Further properties *)

(** ** switchTab *)

Lemma add_active_length (links : list TabLink) :
  forall i, List.length (add_active i links) = List.length links.
Proof. induction links as [|l links IH]; intros [|i]; simpl; auto. Qed.

Lemma active_positions_none (links : list TabLink) :
  forall k, active_positions k (map remove_active links) = [].
Proof. induction links as [|l links IH]; intros k; simpl; auto. Qed.

Lemma active_positions_add (links : list TabLink) :
  forall i k,
    i < List.length links ->
    active_positions k (add_active i (map remove_active links)) = [k + i].
Proof.
  induction links as [|l links IH]; intros i k L; simpl in L; [lia|].
  destruct i as [|i]; simpl.
  - rewrite active_positions_none. now rewrite Nat.add_0_r.
  - rewrite IH by lia. f_equal. lia.
Qed.

(** X1: a click on a tab link leaves that link, and no other, marked
    active, whatever was marked before, and empties the status container;
    the rest of the page is untouched. *)
Theorem switchTab_marks_the_clicked_link (i : nat) (tabs : TabBar) (p : Page) :
  i < List.length (tabLinks tabs) ->
  exists tabs',
    switchTab i tabs p = Some (tabs', set_statusContainer [] p) /\
    active_positions 0 (tabLinks tabs') = [i] /\
    map data_tab (tabLinks tabs') = map data_tab (tabLinks tabs) /\
    map panel_id (tabPanels tabs') = map panel_id (tabPanels tabs).
Proof.
  intros L. unfold switchTab.
  destruct (nth_error (tabLinks tabs) i) as [link|] eqn:N.
  - eexists. split; [reflexivity|]. cbn [tabLinks tabPanels].
    split; [now apply active_positions_add|]. split.
    + clear N L. revert i.
      induction (tabLinks tabs) as [|l links IH]; intros [|i]; simpl; auto.
      * f_equal. clear IH. induction links; simpl; congruence.
      * now rewrite IH.
    + rewrite List.map_map. reflexivity.
  - apply nth_error_None in N. lia.
Qed.

Lemma switchTab_marks_the_clicked_link_witness :
  1 < List.length (tabLinks three_tabs) /\
  exists tabs',
    switchTab 1 three_tabs first_page
    = Some (tabs', set_statusContainer [] first_page) /\
    active_positions 0 (tabLinks tabs') = [1].
Proof.
  assert (L : 1 < List.length (tabLinks three_tabs)) by (simpl; lia).
  split; [exact L|].
  destruct (switchTab_marks_the_clicked_link 1 three_tabs first_page L)
    as (tabs' & E & A & _).
  exists tabs'. split; [exact E | exact A].
Defined.

Lemma visible_after_switch (target : string) (panels : list TabPanel) :
  NoDup (map panel_id panels) ->
  In target (map panel_id panels) ->
  map panel_id
    (filter (fun panel => negb (panel_hidden panel))
       (map (fun panel =>
               mkTabPanel (panel_id panel)
                 (differs (panel_id panel) (Some target))) panels))
  = [target].
Proof.
  induction panels as [|x panels IH]; intros ND I; [contradiction|].
  simpl in ND, I. inversion ND as [|? ? NI ND']; subst.
  cbn [map filter panel_hidden panel_id differs].
  rewrite negb_involutive.
  destruct (String.eqb_spec (panel_id x) target) as [E|NE].
  - cbn [map panel_id]. rewrite E. f_equal.
    rewrite E in NI. clear IH ND ND' I E.
    induction panels as [|y panels IH]; [reflexivity|].
    cbn [map filter panel_hidden panel_id differs].
    rewrite negb_involutive.
    destruct (String.eqb_spec (panel_id y) target) as [E|_].
    + exfalso. apply NI. left. exact E.
    + apply IH. intro H. apply NI. right. exact H.
  - apply IH; [exact ND'|]. destruct I as [E|I]; [contradiction|exact I].
Qed.

(** X2: when the ids of the panels are distinct and the clicked link names
    one of them in its [data-tab], that panel is the only one shown after
    the click, whichever panels were shown before. *)
Theorem switchTab_shows_the_named_panel (i : nat) (tabs tabs' : TabBar)
  (p p' : Page) (link : TabLink) (target : string) :
  nth_error (tabLinks tabs) i = Some link ->
  data_tab link = Some target ->
  NoDup (map panel_id (tabPanels tabs)) ->
  In target (map panel_id (tabPanels tabs)) ->
  switchTab i tabs p = Some (tabs', p') ->
  visible_panels tabs' = [target].
Proof.
  intros N T ND I. unfold switchTab. rewrite N, T.
  intros [= <- _]. unfold visible_panels. cbn [tabPanels].
  now apply visible_after_switch.
Qed.

Lemma switchTab_shows_the_named_panel_witness :
  exists tabs',
    switchTab 2 three_tabs first_page
    = Some (tabs', set_statusContainer [] first_page) /\
    visible_panels tabs' = ["delete"].
Proof.
  eexists. split; [reflexivity|].
  apply (switchTab_shows_the_named_panel 2 three_tabs _ first_page
           (set_statusContainer [] first_page)
           (mkTabLink (Some "delete") false) "delete").
  - reflexivity.
  - reflexivity.
  - simpl. repeat constructor; simpl; intuition discriminate.
  - simpl. auto.
  - reflexivity.
Defined.

(** X3: a click on a link whose [data-tab] is missing, or names no panel,
    hides every panel: no panel is shown afterwards. *)
Theorem switchTab_without_panel_hides_all (i : nat) (tabs tabs' : TabBar)
  (p p' : Page) (link : TabLink) :
  nth_error (tabLinks tabs) i = Some link ->
  (forall target,
      data_tab link = Some target ->
      ~ In target (map panel_id (tabPanels tabs))) ->
  switchTab i tabs p = Some (tabs', p') ->
  visible_panels tabs' = [].
Proof.
  intros N T. unfold switchTab. rewrite N.
  intros [= <- _]. unfold visible_panels. cbn [tabPanels].
  induction (tabPanels tabs) as [|x panels IH]; [reflexivity|].
  cbn [map filter panel_hidden panel_id].
  assert (D : differs (panel_id x) (data_tab link) = true).
  { destruct (data_tab link) as [t|] eqn:E; [|reflexivity].
    simpl. destruct (String.eqb_spec (panel_id x) t) as [Ex|_]; [|reflexivity].
    exfalso. apply (T t eq_refl). left. exact Ex. }
  rewrite D. cbn [negb]. apply IH.
  intros t E I. apply (T t E). right. exact I.
Qed.

Lemma switchTab_without_panel_hides_all_witness :
  exists tabs',
    switchTab 0
      (mkTabBar [mkTabLink None false; mkTabLink (Some "commit") true]
                [mkTabPanel "generate" true; mkTabPanel "commit" false])
      first_page
    = Some (tabs', set_statusContainer [] first_page) /\
    visible_panels tabs' = [].
Proof.
  eexists. split; [reflexivity|].
  apply (switchTab_without_panel_hides_all 0
           (mkTabBar [mkTabLink None false; mkTabLink (Some "commit") true]
                     [mkTabPanel "generate" true; mkTabPanel "commit" false])
           _ first_page (set_statusContainer [] first_page)
           (mkTabLink None false)).
  - reflexivity.
  - intros target E. discriminate E.
  - reflexivity.
Defined.

Lemma remove_active_add_active (links : list TabLink) :
  forall j, map remove_active (add_active j links) = map remove_active links.
Proof. induction links as [|l links IH]; intros [|j]; simpl; auto; now rewrite IH. Qed.

Lemma remove_active_twice (links : list TabLink) :
  map remove_active (map remove_active links) = map remove_active links.
Proof. rewrite List.map_map. reflexivity. Qed.

Lemma nth_error_add_active (links : list TabLink) :
  forall j i,
    option_map data_tab (nth_error (add_active j (map remove_active links)) i)
    = option_map data_tab (nth_error links i).
Proof.
  induction links as [|l links IH]; intros j i.
  - destruct j, i; reflexivity.
  - destruct j as [|j], i as [|i]; simpl; auto.
    rewrite nth_error_map. now destruct (nth_error links i).
Qed.

(** X4: the last click wins: a click on link [i] after a click on any link
    [j] leaves the tab bar and the page exactly as a click on [i] alone
    would; in particular a second click on the same link changes
    nothing. *)
Theorem switchTab_last_click_wins (i j : nat) (tabs tabs1 : TabBar)
  (p p1 : Page) :
  switchTab j tabs p = Some (tabs1, p1) ->
  switchTab i tabs1 p1 = switchTab i tabs p.
Proof.
  unfold switchTab.
  destruct (nth_error (tabLinks tabs) j) as [lj|] eqn:Nj; [|discriminate].
  intros [= <- <-]. cbn [tabLinks tabPanels].
  pose proof (nth_error_add_active (tabLinks tabs) j i) as D.
  destruct (nth_error (add_active j (map remove_active (tabLinks tabs))) i)
    as [l1|], (nth_error (tabLinks tabs) i) as [l|]; simpl in D;
    try discriminate; [|reflexivity].
  injection D as D. rewrite D.
  rewrite remove_active_add_active, remove_active_twice, List.map_map.
  cbn [panel_id]. destruct p. reflexivity.
Qed.

Lemma switchTab_last_click_wins_witness :
  exists tabs1 p1,
    switchTab 2 three_tabs first_page = Some (tabs1, p1) /\
    switchTab 1 tabs1 p1 = switchTab 1 three_tabs first_page.
Proof.
  eexists. eexists. split; [reflexivity|].
  apply (switchTab_last_click_wins 1 2 three_tabs _ first_page _ eq_refl).
Defined.

(** ** What the handlers write *)

Lemma generate_show_writes (I : Page -> Prop) formData p :
  survives_generate I -> I p -> turn_keeps I (generate_show formData p).
Proof.
  intros SV Hp. unfold generate_show, turn_keeps.
  assert (H1 : I (set_problemSelector (select_clear (problemSelector p)) p))
    by now apply SV.
  cbv zeta. destruct (generatedProblems _); try (simpl; auto; fail).
  destruct (forEach _ _ _ _) as [sel [u|e]].
  - match goal with
    | |- context [populateVerificationForm ?i ?q] =>
        assert (Hq : I q) by
          (apply SV; apply SV; apply SV; apply SV; exact H1);
        destruct (populateVerificationForm i q) as [q'|e] eqn:P
    end.
    + apply populate_frame in P as [->|[f ->]]; simpl; split; auto.
      now apply SV.
    + simpl. auto.
  - simpl. split; auto. now apply SV.
Qed.

Lemma generate_empty_writes (I : Page -> Prop) response p :
  survives_generate I -> I p -> turn_keeps I (generate_empty response p).
Proof.
  intros SV Hp. unfold generate_empty, turn_keeps.
  destruct (json response) as [response' promise]. simpl. split; auto.
  intros q Hq. destruct promise as [result|e]; [|simpl; auto].
  destruct result; simpl; split; auto; now apply SV.
Qed.

Lemma generate_parsed_writes (I : Page -> Prop) formData response parsed p :
  survives_generate I -> I p ->
  turn_keeps I (generate_parsed formData response parsed p).
Proof.
  intros SV Hp. unfold generate_parsed.
  assert (H1 : I (set_generatedProblems parsed p)) by now apply SV.
  cbv zeta. destruct (truthy _); [|now apply generate_empty_writes].
  destruct (get _ _) as [len|e]; [|split; simpl; auto].
  destruct (gt_zero len) as [[|]|].
  - now apply generate_show_writes.
  - now apply generate_empty_writes.
  - split; simpl; auto.
Qed.

Lemma generate_fetched_writes (I : Page -> Prop) formData s p :
  survives_generate I -> I p -> turn_keeps I (generate_fetched formData s p).
Proof.
  intros SV Hp. unfold generate_fetched, turn_keeps.
  destruct s as [r|]; [|simpl; auto].
  assert (H1 : I (set_generate_busy false (set_loader_hidden true p)))
    by (apply SV; now apply SV).
  unfold json, new_response. cbn [reply ok bodyUsed body].
  destruct (ok r).
  - simpl. split; auto. intros q Hq.
    destruct (body r) as [parsed|]; [|simpl; auto].
    apply (generate_parsed_writes I formData (mkResponse r true) parsed q SV)
      in Hq.
    destruct (generate_parsed _ _ _ _). exact Hq.
  - simpl. split; auto. now apply SV.
Qed.

Lemma generate_keeps (I : Page -> Prop) (p : Page) (net : list Settlement) :
  survives_generate I ->
  I (page_of (generateForm_submit p)) ->
  I (final (fire generateForm_submit net p)).
Proof.
  intros SV Hp. unfold fire, resume.
  unfold generateForm_submit, fetch in *. cbv zeta in *. cbn [page_of] in Hp.
  apply run_keeps; [|exact Hp].
  intros s q Hq. apply (generate_fetched_writes I (generateForm p) s q SV) in Hq.
  destruct (generate_fetched _ _ _). exact Hq.
Qed.

Lemma commit_fetched_writes (I : Page -> Prop) s p :
  survives_commit I -> I p -> turn_keeps I (commit_fetched s p).
Proof.
  intros SV Hp. unfold commit_fetched, turn_keeps.
  destruct s as [r|]; [|simpl; auto].
  assert (H1 : I (set_commit_busy false p)) by now apply SV.
  unfold json, new_response. cbn [reply ok bodyUsed body].
  simpl. split; auto. intros q Hq.
  destruct (body r) as [result|]; [|simpl; auto].
  unfold commit_parsed. cbn [reply ok].
  destruct (ok r), (get (Some result) "message") as [message|e];
    simpl; auto; split; auto.
  - apply SV. apply SV. apply SV. now apply SV.
  - now apply SV.
Qed.

Lemma commit_keeps (I : Page -> Prop) (p : Page) (net : list Settlement) :
  survives_commit I ->
  I (page_of (commitForm_submit p)) ->
  I (final (fire commitForm_submit net p)).
Proof.
  intros SV Hp. unfold fire, resume.
  unfold commitForm_submit, fetch in *. cbv zeta in *. cbn [page_of] in Hp.
  apply run_keeps; [|exact Hp].
  intros s q Hq. apply (commit_fetched_writes I s q SV) in Hq.
  destruct (commit_fetched _ _). exact Hq.
Qed.

Lemma refresh_parsed_writes (I : Page -> Prop) problems p :
  survives_refresh I -> I p ->
  turn_keeps I (fetchProblemsForBelt_parsed problems p).
Proof.
  intros SV Hp. unfold fetchProblemsForBelt_parsed, turn_keeps.
  assert (H1 : I (set_deleteProblemSelector
                    (select_clear (deleteProblemSelector p)) p))
    by now apply SV.
  cbv zeta.
  destruct (get (Some problems) "length") as [len|e]; [|simpl; auto].
  destruct (gt_zero len) as [[|]|]; [| |simpl; auto].
  - destruct problems; try (simpl; split; auto; now apply SV).
    destruct (forEach _ _ _ _) as [sel [u|e]]; simpl; split; auto.
    + apply SV. apply SV. apply SV. now apply SV.
    + apply SV. now apply SV.
  - simpl. split; auto. now apply SV.
Qed.

Lemma refresh_fetched_writes (I : Page -> Prop) s p :
  survives_refresh I -> I p -> turn_keeps I (fetchProblemsForBelt_fetched s p).
Proof.
  intros SV Hp. unfold fetchProblemsForBelt_fetched, turn_keeps.
  destruct s as [r|]; [|simpl; auto].
  unfold json, new_response. cbn [reply ok bodyUsed body].
  destruct (ok r).
  - simpl. split; auto. intros q Hq.
    destruct (body r) as [problems|]; [|simpl; auto].
    apply (refresh_parsed_writes I problems q SV) in Hq.
    destruct (fetchProblemsForBelt_parsed problems q). exact Hq.
  - simpl. split; auto. now apply SV.
Qed.

Lemma refresh_keeps (I : Page -> Prop) (belt : string) (p : Page)
  (net : list Settlement) :
  survives_refresh I ->
  I (page_of (fetchProblemsForBelt belt p)) ->
  I (final (fire (fetchProblemsForBelt belt) net p)).
Proof.
  intros SV Hp. unfold fire, resume.
  unfold fetchProblemsForBelt, fetch in *. cbv zeta in *. cbn [page_of] in Hp.
  apply run_keeps; [|exact Hp].
  intros s q Hq. apply (refresh_fetched_writes I s q SV) in Hq.
  destruct (fetchProblemsForBelt_fetched _ _). exact Hq.
Qed.

(** ** The generate handler, beyond the claims *)

(** X5: whatever the answer (or none), the generate handler sends exactly
    one request, the submitted form posted to [/generate], and never
    touches the delete form or the busy flag of the commit button. *)
Theorem generate_sends_one_request (p : Page) (net : list Settlement) :
  let r := fire generateForm_submit net p in
  sent (final r) = sent p ++ [POST "/generate" (generateForm p)] /\
  delete_form_same p (final r).
Proof.
  apply (generate_keeps
           (fun q => sent q = sent p ++ [POST "/generate" (generateForm p)] /\
                     delete_form_same p q)).
  - intros q [S D]. unfold delete_form_same, displayMessage in *.
    destruct q. simpl in *. repeat split; intuition.
  - unfold delete_form_same. destruct p. simpl. repeat split.
Qed.

(** X6: when no batch arrives (no answer, a network failure, a non-2xx
    answer, a 2xx answer that is not JSON) the previous batch, the options
    of the problem selector and the values of the review form are all
    kept, but the review section and the selector stay hidden as the
    handler left them before the request. *)
Theorem generate_without_batch_keeps_review (p : Page) (net : list Settlement) :
  no_batch_arrives net ->
  let r := fire generateForm_submit net p in
  generatedProblems (final r) = generatedProblems p /\
  problemSelector (final r) = problemSelector p /\
  review (final r) = review p /\
  verificationSection_hidden (final r) = true /\
  problemSelectorContainer_hidden (final r) = true.
Proof.
  intros [->|(rest & [->|[(b & ->)| ->]])]; destruct p; repeat split.
Qed.

Lemma generate_without_batch_keeps_review_witness :
  no_batch_arrives [Responded (mkReply false None)] /\
  review (final (fire generateForm_submit [Responded (mkReply false None)]
                   reviewing_page))
  = review reviewing_page /\
  verificationSection_hidden
    (final (fire generateForm_submit [Responded (mkReply false None)]
              reviewing_page)) = true.
Proof.
  assert (N : no_batch_arrives [Responded (mkReply false None)]).
  { right. exists []. right. left. exists None. reflexivity. }
  destruct (generate_without_batch_keeps_review reviewing_page _ N)
    as (_ & _ & R & V & _).
  split; [exact N|]. split; [exact R | exact V].
Defined.

Lemma generate_parsed_nonempty formData response (x : JSON) (items : list JSON) p :
  generate_parsed formData response (JArr (x :: items)) p
  = generate_show formData (set_generatedProblems (JArr (x :: items)) p).
Proof. reflexivity. Qed.

Lemma forEach_stops_at_null (ds : list Problem) (rest : list JSON) :
  forall i sel,
    exists sel',
      forEach add_problem_option (map problem_json ds ++ JNull :: rest) i sel
      = (sel', Throw NotAnObject) /\
      options sel' = options sel ++ problem_options i ds.
Proof.
  induction ds as [|d ds IH]; intros i sel.
  - exists sel. simpl. now rewrite List.app_nil_r.
  - cbn [map List.app forEach].
    assert (E : add_problem_option (problem_json d) i sel
                = (select_add (Option2 (option_label i d) (nat_to_string i)) sel,
                   Ok tt)).
    { unfold add_problem_option, option_label. simpl.
      destruct (String.eqb (title d) ""); reflexivity. }
    rewrite E.
    destruct (IH (S i) (select_add (Option2 (option_label i d) (nat_to_string i)) sel))
      as (sel' & F & O).
    exists sel'. rewrite F, O. simpl. rewrite <- List.app_assoc. auto.
Qed.

Lemma generate_parsed_null_item formData response (ds : list Problem)
  (rest : list JSON) p :
  generate_parsed formData response
    (JArr (map problem_json ds ++ JNull :: rest)) p
  = generate_show formData
      (set_generatedProblems (JArr (map problem_json ds ++ JNull :: rest)) p).
Proof. destruct ds; reflexivity. Qed.

Lemma generate_show_null_item formData (ds : list Problem) (rest : list JSON) p :
  generatedProblems p = JArr (map problem_json ds ++ JNull :: rest) ->
  exists q,
    generate_show formData p = turn q (Settled (Rejected NotAnObject)) /\
    options (problemSelector q) = problem_options 0 ds /\
    generatedProblems q = generatedProblems p /\
    verificationSection_hidden q = verificationSection_hidden p /\
    problemSelectorContainer_hidden q = problemSelectorContainer_hidden p /\
    review q = review p.
Proof.
  intros G. unfold generate_show.
  cbn [generatedProblems set_problemSelector problemSelector].
  rewrite G.
  destruct (forEach_stops_at_null ds rest 0 (select_clear (problemSelector p)))
    as (sel' & F & O).
  rewrite F. eexists. split; [reflexivity|].
  simpl. rewrite O. auto 10.
Qed.

(** X7: a [null] among the items of a 2xx batch stops the handler where it
    meets it: the batch has replaced [generatedProblems] and the selector
    holds the options of the drafts before the [null], but the review
    section and the selector stay hidden, the review form keeps its values
    and the call is rejected. *)
Theorem generate_null_item_stops_midway (p : Page) (net : list Settlement)
  (ds : list Problem) (rest : list JSON) :
  let batch := JArr (map problem_json ds ++ JNull :: rest) in
  let r := fire generateForm_submit
             (Responded (mkReply true (Some batch)) :: net) p in
  status r = Finished (Rejected NotAnObject) /\
  generatedProblems (final r) = batch /\
  options (problemSelector (final r)) = problem_options 0 ds /\
  verificationSection_hidden (final r) = true /\
  problemSelectorContainer_hidden (final r) = true /\
  review (final r) = review p.
Proof.
  intros batch r.
  destruct (generate_show_null_item (generateForm p) ds rest
              (set_generatedProblems batch
                 (set_generate_busy false
                    (set_loader_hidden true (page_of (generateForm_submit p))))))
    as (q & E & O & G & V & C & R); [reflexivity|].
  assert (Er : r = mkRun q (Finished (Rejected NotAnObject)) [] net).
  { subst r batch. now rewrite fire_generate_2xx, generate_parsed_null_item, E. }
  rewrite Er. clear Er r E. cbv beta iota delta [final status].
  rewrite O, G, V, C, R. clear. destruct p. repeat split.
Qed.

Lemma populate_empty_batch (idx : Value) (p : Page) :
  generatedProblems p = JArr [] ->
  populateVerificationForm idx p = Ok p.
Proof.
  unfold populateVerificationForm, get, get_own. intros ->.
  destruct (String.eqb (to_property_key idx) "length"); [reflexivity|].
  destruct (array_index (to_property_key idx)) as [[|n]|]; reflexivity.
Qed.

Lemma generate_empty_batch_result (p : Page) (net : list Settlement) :
  exists q,
    fire generateForm_submit
      (Responded (mkReply true (Some (JArr []))) :: net) p
    = mkRun q (Finished (Rejected BodyAlreadyRead)) [] net /\
    generatedProblems q = JArr [] /\
    problemSelector q = problemSelector p /\
    problemSelectorContainer_hidden q = true.
Proof. destruct p. eexists. split; [reflexivity|]. repeat split. Qed.

Lemma choose_problem_batch (i : nat) (q : Page) :
  generatedProblems (choose_problem i q) = generatedProblems q.
Proof. reflexivity. Qed.

(** X8: a 2xx answer with an empty list empties [generatedProblems] but
    leaves the options of the previous batch in the (hidden) selector;
    whichever of them is then selected, the change listener finds no item
    and leaves the page alone. *)
Theorem generate_empty_batch_leaves_stale_options (p : Page)
  (net : list Settlement) (i : nat) :
  let q := final (fire generateForm_submit
                    (Responded (mkReply true (Some (JArr []))) :: net) p) in
  generatedProblems q = JArr [] /\
  options (problemSelector q) = options (problemSelector p) /\
  problemSelectorContainer_hidden q = true /\
  problemSelector_change (choose_problem i q)
  = turn (choose_problem i q) (Settled Fulfilled).
Proof.
  intros q.
  destruct (generate_empty_batch_result p net) as (q0 & E & G & S & H).
  assert (Eq : q = q0) by (subst q; now rewrite E).
  rewrite Eq. clear Eq q E.
  split; [exact G|]. split; [now rewrite S|]. split; [exact H|].
  unfold problemSelector_change.
  rewrite populate_empty_batch; [reflexivity|].
  rewrite choose_problem_batch. exact G.
Qed.

(** The option that generate writes at position [i]. *)
Lemma nth_error_problem_options (ds : list Problem) :
  forall k i d,
    nth_error ds i = Some d ->
    nth_error (problem_options k ds) i
    = Some (Option2 (option_label (k + i) d) (nat_to_string (k + i))).
Proof.
  induction ds as [|x ds IH]; intros k [|i] d N; simpl in *; try discriminate.
  - injection N as ->. now rewrite Nat.add_0_r.
  - rewrite (IH (S k) i d N). now replace (S k + i) with (k + S i) by lia.
Qed.

Lemma populate_at_option_value (p : Page) (ds : list Problem) (i : nat)
  (d : Problem) :
  generatedProblems p = JArr (map problem_json ds) ->
  nth_error ds i = Some d ->
  populateVerificationForm (Some (JStr (nat_to_string i))) p
  = Ok (set_review
          (mkReview (title d) (topic d) (verify_belt (review p))
             (readme d) (solution d)) p).
Proof.
  intros G N. unfold populateVerificationForm, to_property_key, value_to_string.
  cbn [to_string]. rewrite G. unfold get, get_own.
  rewrite nat_to_string_not_length, array_index_nat_to_string, nth_error_map, N.
  reflexivity.
Qed.

Lemma generate_batch_result (p : Page) (net : list Settlement) (d : Problem)
  (ds : list Problem) :
  exists q,
    fire generateForm_submit
      (Responded (mkReply true (Some (JArr (map problem_json (d :: ds)))))
         :: net) p
    = mkRun q (Finished Fulfilled) [] net /\
    options (problemSelector q) = problem_options 0 (d :: ds) /\
    generatedProblems q = JArr (map problem_json (d :: ds)) /\
    review q
    = mkReview (title d) (topic d)
        (match form_get "belt" (generateForm p) with Some v => v | None => "" end)
        (readme d) (solution d).
Proof.
  destruct (generate_show_batch (generateForm p) d ds
              (set_generatedProblems (JArr (map problem_json (d :: ds)))
                 (set_generate_busy false
                    (set_loader_hidden true (page_of (generateForm_submit p))))))
    as (q & E & O & _ & _ & R & G); [reflexivity|].
  exists q. rewrite fire_generate_2xx, generate_parsed_batch, E.
  repeat split; auto.
Qed.

(** X9: the options a successful generate writes lead back to the drafts
    they stand for: selecting option [i] of the new selector fills the
    review form with the title, topic, readme and solution of draft [i] and
    keeps the belt. *)
Theorem selecting_a_generated_problem (p : Page) (net : list Settlement)
  (d : Problem) (ds : list Problem) (i : nat) (di : Problem) :
  nth_error (d :: ds) i = Some di ->
  let q := final (fire generateForm_submit
                    (Responded
                       (mkReply true (Some (JArr (map problem_json (d :: ds)))))
                       :: net) p) in
  problemSelector_change (choose_problem i q)
  = turn (set_review
            (mkReview (title di) (topic di) (verify_belt (review q))
               (readme di) (solution di))
            (choose_problem i q))
         (Settled Fulfilled).
Proof.
  intros N q.
  destruct (generate_batch_result p net d ds) as (q0 & E & O & G & _).
  assert (Eq : q = q0) by (subst q; now rewrite E).
  rewrite Eq. clear Eq q E.
  unfold problemSelector_change.
  assert (V : select_value (problemSelector (choose_problem i q0))
              = nat_to_string i).
  { unfold choose_problem, select_value.
    cbn [problemSelector set_problemSelector select_choose selectedIndex
         options].
    now rewrite O, (nth_error_problem_options (d :: ds) 0 i di N). }
  rewrite V.
  rewrite (populate_at_option_value (choose_problem i q0) (d :: ds) i di);
    [reflexivity | destruct q0; exact G | exact N].
Qed.

Lemma selecting_a_generated_problem_witness :
  nth_error two_drafts 1
  = Some (mkProblem "" "dp" "# Stairs" "def climb(): pass") /\
  review
    (page_of
       (problemSelector_change
          (choose_problem 1
             (final (fire generateForm_submit
                       [Responded
                          (mkReply true (Some (JArr (map problem_json two_drafts))))]
                       first_page)))))
  = mkReview "" "dp" "white" "# Stairs" "def climb(): pass".
Proof.
  split; [reflexivity|].
  exact (f_equal (fun t => review (page_of t))
           (selecting_a_generated_problem first_page []
              (mkProblem "Two Sum" "arrays" "# Two Sum" "def two_sum(): pass")
              [mkProblem "" "dp" "# Stairs" "def climb(): pass"] 1
              (mkProblem "" "dp" "# Stairs" "def climb(): pass") eq_refl)).
Defined.

Lemma resume_generate_2xx formData (v : JSON) (q : Page) (net : list Settlement) :
  resume (generate_fetched formData (Responded (mkReply true (Some v))) q) net
  = resume
      (generate_parsed formData (mkResponse (mkReply true (Some v)) true) v
         (set_generate_busy false (set_loader_hidden true q)))
      net.
Proof. reflexivity. Qed.

(** X10: the belt copied into the review form is the one that was
    submitted.  The form data is read before the request leaves; whatever
    the page has become when the answer arrives (the generate form edited
    meanwhile, say), the belt field receives the belt of the request. *)
Theorem generate_copies_the_submitted_belt (p q : Page) (d : Problem)
  (ds : list Problem) (belt : string) (net : list Settlement) :
  form_get "belt" (generateForm p) = Some belt ->
  task_of (generateForm_submit p)
  = AwaitFetch (POST "/generate" (generateForm p))
      (generate_fetched (generateForm p)) /\
  verify_belt
    (review
       (final
          (resume
             (generate_fetched (generateForm p)
                (Responded
                   (mkReply true (Some (JArr (map problem_json (d :: ds))))))
                q)
             net)))
  = belt.
Proof.
  intros B. split; [reflexivity|].
  rewrite resume_generate_2xx, generate_parsed_batch.
  destruct (generate_show_batch (generateForm p) d ds
              (set_generatedProblems (JArr (map problem_json (d :: ds)))
                 (set_generate_busy false (set_loader_hidden true q))))
    as (q' & E & _ & _ & _ & R & _); [reflexivity|].
  rewrite E. simpl. rewrite R, B. reflexivity.
Qed.

Lemma generate_copies_the_submitted_belt_witness :
  form_get "belt" (generateForm first_page) = Some "white" /\
  verify_belt
    (review
       (final
          (resume
             (generate_fetched (generateForm first_page)
                (Responded
                   (mkReply true (Some (JArr (map problem_json two_drafts)))))
                deleting_page)
             [])))
  = "white".
Proof.
  split; [reflexivity|].
  exact (proj2 (generate_copies_the_submitted_belt first_page deleting_page
                  (mkProblem "Two Sum" "arrays" "# Two Sum" "def two_sum(): pass")
                  [mkProblem "" "dp" "# Stairs" "def climb(): pass"]
                  "white" [] eq_refl)).
Defined.

(** X11: a 2xx answer whose body is the JSON value [null] leaves [null] in
    [generatedProblems]; from then on the change listener of the problem
    selector throws on the indexed read, whatever is selected, and changes
    nothing. *)
Theorem generate_null_body_breaks_selection (p : Page) (net : list Settlement)
  (i : nat) :
  let r := fire generateForm_submit
             (Responded (mkReply true (Some JNull)) :: net) p in
  status r = Finished (Rejected BodyAlreadyRead) /\
  generatedProblems (final r) = JNull /\
  problemSelector_change (choose_problem i (final r))
  = turn (choose_problem i (final r)) (Settled (Rejected NotAnObject)).
Proof. destruct p. repeat split. Qed.

(** ** The commit handler, beyond the claims *)

(** X12: whatever the answer (or none), the commit handler sends exactly
    one request, never removes a message already displayed, and leaves
    alone the batch, the problem selector, the loader, the generate button
    and the whole delete form. *)
Theorem commit_sends_one_request (p : Page) (net : list Settlement) :
  let r := fire commitForm_submit net p in
  sent (final r) = sent p ++ [POST "/commit" (commitForm_data (review p))] /\
  keeps_messages p (final r) /\
  commit_frame p (final r).
Proof.
  apply (commit_keeps
           (fun q =>
              sent q = sent p ++ [POST "/commit" (commitForm_data (review p))] /\
              keeps_messages p q /\ commit_frame p q)).
  - intros q (S & (more & M) & F).
    unfold keeps_messages, commit_frame, displayMessage in *.
    destruct q. simpl in *.
    repeat split; try tauto; try (exists more; exact M).
    exists (more ++ [mkMessage (text_content m) t]).
    rewrite M. now rewrite List.app_assoc.
  - unfold keeps_messages, commit_frame. destruct p. simpl.
    repeat split. exists []. now rewrite List.app_nil_r.
Qed.

(** X13: an answer the commit handler cannot read a message from (a
    network failure, a body that is not JSON, the JSON value [null]), 2xx
    or not, rejects the call and displays nothing; the review form keeps
    its values and the sections their visibility.  The busy flag of the
    commit button is cleared, except after a network failure, where it
    stays set. *)
Theorem commit_unreadable_answer (p : Page) (s : Settlement) (e : Error)
  (net : list Settlement) :
  unreadable s e ->
  let r := fire commitForm_submit (s :: net) p in
  status r = Finished (Rejected e) /\
  statusContainer (final r) = statusContainer p /\
  review (final r) = review p /\
  verificationSection_hidden (final r) = verificationSection_hidden p /\
  problemSelectorContainer_hidden (final r) = problemSelectorContainer_hidden p /\
  commit_busy (final r) = busy_after s.
Proof.
  intros U. destruct U as [|o|o]; try destruct o; destruct p; repeat split.
Qed.

Lemma commit_unreadable_answer_witness :
  unreadable (Responded (mkReply false None)) JsonSyntax /\
  status (fire commitForm_submit [Responded (mkReply false None)] reviewing_page)
  = Finished (Rejected JsonSyntax) /\
  statusContainer
    (final (fire commitForm_submit [Responded (mkReply false None)]
              reviewing_page))
  = [].
Proof.
  destruct (commit_unreadable_answer reviewing_page
              (Responded (mkReply false None)) JsonSyntax []
              (unreadable_syntax false)) as (S & M & _).
  split; [constructor|]. split; [exact S | exact M].
Defined.

(** X14: an answer whose JSON body is not [null] and has no [message]
    displays a message with an empty text: of type success, with the
    sections hidden and the form reset, after a 2xx answer; of type error,
    with the review form as it was, after a non-2xx answer. *)
Theorem commit_answer_without_message (p : Page) (v : JSON)
  (net : list Settlement) :
  v <> JNull ->
  get_own v "message" = None ->
  (let r := fire commitForm_submit
              (Responded (mkReply true (Some v)) :: net) p in
   status r = Finished Fulfilled /\
   statusContainer (final r) = statusContainer p ++ [mkMessage "" "success"] /\
   verificationSection_hidden (final r) = true /\
   problemSelectorContainer_hidden (final r) = true /\
   review (final r) = review_defaults p) /\
  (let r := fire commitForm_submit
              (Responded (mkReply false (Some v)) :: net) p in
   status r = Finished Fulfilled /\
   statusContainer (final r) = statusContainer p ++ [mkMessage "" "error"] /\
   review (final r) = review p).
Proof.
  intros NN M. destruct p.
  unfold fire, commitForm_submit, fetch, resume. rewrite !run_fetch.
  unfold commit_fetched, json, new_response.
  cbn [ok reply body bodyUsed resume]. rewrite !run_body.
  unfold commit_parsed, get. cbn [ok reply].
  destruct v; try contradiction; rewrite M; cbn; repeat split.
Qed.

Lemma commit_answer_without_message_witness :
  JObj [("status", JStr "ok")] <> JNull /\
  get_own (JObj [("status", JStr "ok")]) "message" = None /\
  statusContainer
    (final (fire commitForm_submit
              [Responded (mkReply true (Some (JObj [("status", JStr "ok")])))]
              reviewing_page))
  = [mkMessage "" "success"].
Proof.
  assert (N : JObj [("status", JStr "ok")] <> JNull) by discriminate.
  destruct (commit_answer_without_message reviewing_page
              (JObj [("status", JStr "ok")]) [] N eq_refl)
    as ((_ & M & _) & _).
  split; [exact N|]. split; [reflexivity | exact M].
Defined.

(** ** fetchProblemsForBelt, beyond the claims *)

(** X15: whatever the answer (or none), [fetchProblemsForBelt] sends
    exactly one request, displays no message, and leaves alone the belt
    selector, the busy flag of the delete button and everything on the
    generate and review side of the page. *)
Theorem fetchProblemsForBelt_frame_and_request (belt : string) (p : Page)
  (net : list Settlement) :
  let q := final (fire (fetchProblemsForBelt belt) net p) in
  sent q = sent p ++ [GET ("/problems/" ++ belt)] /\
  statusContainer q = statusContainer p /\
  deleteBeltSelector q = deleteBeltSelector p /\
  deleteBtn_busy q = deleteBtn_busy p /\
  review_side_same p q.
Proof.
  apply (refresh_keeps
           (fun q =>
              sent q = sent p ++ [GET ("/problems/" ++ belt)] /\
              statusContainer q = statusContainer p /\
              deleteBeltSelector q = deleteBeltSelector p /\
              deleteBtn_busy q = deleteBtn_busy p /\
              review_side_same p q)).
  - intros q H. unfold review_side_same in *.
    destruct q. simpl in *. repeat split; tauto.
  - unfold review_side_same. destruct p. simpl. repeat split.
Qed.

Lemma refresh_parsed_button (problems : JSON) (p : Page) :
  deleteBtn_disabled p = disabled (deleteProblemSelector p) ->
  turn_keeps (fun q => deleteBtn_disabled q = disabled (deleteProblemSelector q))
    (fetchProblemsForBelt_parsed problems p).
Proof.
  intros B. unfold fetchProblemsForBelt_parsed, turn_keeps. cbv zeta.
  destruct (get (Some problems) "length") as [len|e]; [|simpl; auto].
  destruct (gt_zero len) as [[|]|]; [| |simpl; auto].
  - destruct problems; try (simpl; auto; fail).
    rewrite forEach_names. simpl. auto.
  - simpl. auto.
Qed.

(** X16: the delete button follows the problem selector.  At the end of
    every run of [fetchProblemsForBelt], whatever the answer and whatever
    the state it started from, the button is disabled exactly when the
    selector is. *)
Theorem fetchProblemsForBelt_button_follows_selector (belt : string) (p : Page)
  (net : list Settlement) :
  let q := final (fire (fetchProblemsForBelt belt) net p) in
  deleteBtn_disabled q = disabled (deleteProblemSelector q).
Proof.
  unfold fire, fetchProblemsForBelt, fetch, resume. cbv zeta.
  apply (run_keeps
           (fun q => deleteBtn_disabled q = disabled (deleteProblemSelector q)));
    [|reflexivity].
  intros s q B. unfold fetchProblemsForBelt_fetched.
  destruct s as [r|]; [|simpl; auto].
  unfold json, new_response. cbn [reply ok bodyUsed body].
  destruct (ok r); [|simpl; auto].
  split; [exact B|]. intros q' B'.
  destruct (body r) as [problems|]; [|simpl; auto].
  apply (refresh_parsed_button problems q') in B'.
  destruct (fetchProblemsForBelt_parsed problems q'). exact B'.
Qed.

(** X17: only a non-2xx answer gives the [Error loading] placeholder.
    With no answer, after a network failure or after a 2xx answer that is
    not JSON, the selector stays on [Loading...], disabled like the button,
    and no message tells the user. *)
Theorem fetchProblemsForBelt_stuck_on_loading (belt : string) (p : Page)
  (net : list Settlement) :
  net = [] \/
  (exists rest, net = Failed :: rest \/
                net = Responded (mkReply true None) :: rest) ->
  let q := final (fire (fetchProblemsForBelt belt) net p) in
  options (deleteProblemSelector q) = [Option2 "Loading..." ""] /\
  disabled (deleteProblemSelector q) = true /\
  deleteBtn_disabled q = true /\
  statusContainer q = statusContainer p.
Proof. intros [->|(rest & [->| ->])]; destruct p; repeat split. Qed.

Lemma fetchProblemsForBelt_stuck_on_loading_witness :
  ([Failed] = [] \/
   exists rest, [Failed] = Failed :: rest \/
                [Failed] = Responded (mkReply true None) :: rest) /\
  options
    (deleteProblemSelector
       (final (fire (fetchProblemsForBelt "white") [Failed] deleting_page)))
  = [Option2 "Loading..." ""].
Proof.
  assert (H : [Failed] = [] \/
              exists rest, [Failed] = Failed :: rest \/
                           [Failed] = Responded (mkReply true None) :: rest).
  { right. exists []. left. reflexivity. }
  split; [exact H|].
  exact (proj1 (fetchProblemsForBelt_stuck_on_loading "white" deleting_page
                  [Failed] H)).
Defined.

Lemma fetchProblems_names_result (belt : string) (p : Page)
  (net : list Settlement) (name : string) (names : list string) :
  exists q,
    fire (fetchProblemsForBelt belt)
         (Responded (mkReply true (Some (JArr (map JStr (name :: names)))))
            :: net) p
    = mkRun q (Finished Fulfilled) [] net /\
    deleteProblemSelector q
    = mkSelect (Option4 "-- Select a problem --" "" true true
                  :: map (fun n => Option2 n n) (name :: names))
               (Some 0) false /\
    deleteBtn_disabled q = false /\
    deleteBeltSelector q = deleteBeltSelector p /\
    statusContainer q = statusContainer p /\
    deleteBtn_busy q = deleteBtn_busy p /\
    sent q = sent p ++ [GET ("/problems/" ++ belt)].
Proof.
  rewrite fire_fetchProblems_2xx.
  destruct p. unfold fetchProblemsForBelt_parsed.
  cbn [get get_own String.eqb Ascii.eqb Bool.eqb gt_zero map List.length
       Z.of_nat Z.ltb Z.compare].
  rewrite forEach_names.
  eexists. split; [reflexivity|].
  cbn. rewrite List.map_map. repeat split.
Qed.

(** X18: once the names are loaded the placeholder is the selected option,
    so the value of the selector is the empty string: a delete confirmed
    before the user picks a problem posts the belt with an empty problem
    name. *)
Theorem delete_right_after_load_posts_empty_problem (belt : string) (p : Page)
  (net : list Settlement) (name : string) (names : list string) :
  let q := final (fire (fetchProblemsForBelt belt)
                    (Responded
                       (mkReply true (Some (JArr (map JStr (name :: names)))))
                       :: net) p) in
  select_value (deleteProblemSelector q) = "" /\
  sent (page_of (deleteForm_submit true q))
  = sent q ++ [POST "/delete" [("belt", deleteBeltSelector p); ("problem", "")]].
Proof.
  intros q.
  destruct (fetchProblems_names_result belt p net name names)
    as (q0 & E & S & _ & B & _).
  assert (Eq : q = q0) by (subst q; now rewrite E).
  rewrite Eq. clear Eq q E.
  split; [now rewrite S|].
  unfold deleteForm_submit, fetch. cbn [negb page_of].
  destruct q0. simpl in *. subst. reflexivity.
Qed.

Lemma belt_change_run (p : Page) (net : list Settlement) :
  deleteBeltSelector p <> "" ->
  fire deleteBeltSelector_change net p
  = let r := fire (fetchProblemsForBelt (deleteBeltSelector p)) net p in
    mkRun (final r) (Finished Fulfilled) (status r :: children r) (unread r).
Proof.
  intros NE. unfold fire, deleteBeltSelector_change. cbn [truthy].
  destruct (String.eqb_spec (deleteBeltSelector p) "") as [E|_];
    [contradiction|].
  cbn [negb]. destruct (fetchProblemsForBelt (deleteBeltSelector p) p).
  reflexivity.
Qed.

(** X19: choosing a belt loads its problems: when the belt selector changes
    to a belt that is not empty and the server answers 2xx with the names
    [name :: names], the problem selector ends with the placeholder and one
    option per name, enabled like the delete button, after exactly one
    request for that belt. *)
Theorem belt_change_loads_problems (p : Page) (net : list Settlement)
  (name : string) (names : list string) :
  deleteBeltSelector p <> "" ->
  let r := fire deleteBeltSelector_change
             (Responded (mkReply true (Some (JArr (map JStr (name :: names)))))
                :: net) p in
  status r = Finished Fulfilled /\
  children r = [Finished Fulfilled] /\
  options (deleteProblemSelector (final r))
  = Option4 "-- Select a problem --" "" true true
      :: map (fun n => Option2 n n) (name :: names) /\
  disabled (deleteProblemSelector (final r)) = false /\
  deleteBtn_disabled (final r) = false /\
  sent (final r) = sent p ++ [GET ("/problems/" ++ deleteBeltSelector p)].
Proof.
  intros NE r. subst r. rewrite (belt_change_run p _ NE). cbv zeta.
  destruct (fetchProblems_names_result (deleteBeltSelector p) p net name names)
    as (q & E & S & D & _ & _ & _ & L).
  rewrite E. cbn [final status children]. rewrite S, D, L. repeat split.
Qed.

Lemma belt_change_loads_problems_witness :
  deleteBeltSelector deleting_page <> "" /\
  options
    (deleteProblemSelector
       (final (fire deleteBeltSelector_change
                 [Responded (mkReply true (Some (JArr (map JStr ["p1"; "p2"]))))]
                 deleting_page)))
  = [Option4 "-- Select a problem --" "" true true;
     Option2 "p1" "p1"; Option2 "p2" "p2"].
Proof.
  assert (N : deleteBeltSelector deleting_page <> "") by discriminate.
  destruct (belt_change_loads_problems deleting_page [] "p1" ["p2"] N)
    as (_ & _ & O & _).
  split; [exact N | exact O].
Defined.

(** ** The delete handler, beyond the claims *)

Lemma delete_fetched_writes (I : Page -> Prop) s p :
  survives_delete I -> I p -> turn_keeps I (delete_fetched s p).
Proof.
  intros [SR SV] Hp. unfold delete_fetched, turn_keeps.
  destruct s as [r|]; [|simpl; auto].
  assert (H1 : I (set_deleteBtn_busy false p)) by now apply SV.
  unfold json, new_response. cbn [reply ok bodyUsed body].
  simpl. split; auto. intros q Hq.
  destruct (body r) as [result|]; [|simpl; auto].
  unfold delete_parsed. cbn [reply ok].
  destruct (ok r), (get (Some result) "message") as [message|e];
    try (simpl; auto; fail).
  - assert (H2 : I (displayMessage message "success" q)) by now apply SV.
    unfold fetchProblemsForBelt, fetch. cbv zeta. cbn [page_of task_of keeps].
    split; [|split; [|exact Logic.I]].
    + apply SV. apply SR. apply SR. now apply SR.
    + intros s' q' Hq'. apply (refresh_fetched_writes I s' q' SR) in Hq'.
      destruct (fetchProblemsForBelt_fetched s' q'). exact Hq'.
  - simpl. split; auto. now apply SV.
Qed.

Lemma delete_keeps (I : Page -> Prop) (confirmed : bool) (p : Page)
  (net : list Settlement) :
  survives_delete I -> I p ->
  I (final (fire (deleteForm_submit confirmed) net p)).
Proof.
  intros SD Hp. unfold fire, resume, deleteForm_submit.
  destruct confirmed; cbn [negb]; [|exact Hp].
  unfold fetch. cbv zeta. apply run_keeps.
  - intros s q Hq. apply (delete_fetched_writes I s q SD) in Hq.
    destruct (delete_fetched s q). exact Hq.
  - destruct SD as [_ SV]. apply SV. now apply SV.
Qed.

(** X20: confirmed or declined, and whatever the answers, the delete
    handler never removes a message already displayed and leaves alone the
    belt selector and everything on the generate and review side of the
    page. *)
Theorem delete_leaves_review_side (confirmed : bool) (p : Page)
  (net : list Settlement) :
  let q := final (fire (deleteForm_submit confirmed) net p) in
  keeps_messages p q /\
  deleteBeltSelector q = deleteBeltSelector p /\
  review_side_same p q.
Proof.
  apply (delete_keeps
           (fun q => keeps_messages p q /\
                     deleteBeltSelector q = deleteBeltSelector p /\
                     review_side_same p q)).
  - split.
    + intros q H. unfold keeps_messages, review_side_same in *.
      destruct q. simpl in *. repeat split; tauto.
    + intros q ((more & M) & H).
      unfold keeps_messages, review_side_same, displayMessage in *.
      destruct q. simpl in *.
      repeat split; try tauto; try (exists more; exact M).
      exists (more ++ [mkMessage (text_content m) t]).
      rewrite M. now rewrite List.app_assoc.
  - unfold keeps_messages, review_side_same. destruct p. simpl.
    repeat split. exists []. now rewrite List.app_nil_r.
Qed.

(** X21: a whole delete.  After a 2xx answer to the delete request the
    list is loaded again: when the server then reports the names
    [name :: names] the selector shows the placeholder and these names,
    enabled like the button; when it reports an empty list the selector
    shows [No problems found] and both are disabled.  Either way the
    message of the server is displayed and the busy flag is cleared. *)
Theorem delete_then_refresh (p : Page) (members : list (string * JSON))
  (m : string) (net : list Settlement) :
  carries_message members m ->
  (forall name names,
      let r := fire (deleteForm_submit true)
                 (Responded (mkReply true (Some (JObj members)))
                    :: Responded
                         (mkReply true (Some (JArr (map JStr (name :: names)))))
                    :: net) p in
      status r = Finished Fulfilled /\
      children r = [Finished Fulfilled] /\
      options (deleteProblemSelector (final r))
      = Option4 "-- Select a problem --" "" true true
          :: map (fun n => Option2 n n) (name :: names) /\
      disabled (deleteProblemSelector (final r)) = false /\
      deleteBtn_disabled (final r) = false /\
      deleteBtn_busy (final r) = false /\
      statusContainer (final r) = statusContainer p ++ [mkMessage m "success"]) /\
  (let r := fire (deleteForm_submit true)
              (Responded (mkReply true (Some (JObj members)))
                 :: Responded (mkReply true (Some (JArr []))) :: net) p in
   status r = Finished Fulfilled /\
   children r = [Finished Fulfilled] /\
   options (deleteProblemSelector (final r))
   = [Option2 "-- No problems found --" ""] /\
   disabled (deleteProblemSelector (final r)) = true /\
   deleteBtn_disabled (final r) = true /\
   deleteBtn_busy (final r) = false /\
   statusContainer (final r) = statusContainer p ++ [mkMessage m "success"]).
Proof.
  intros M. split.
  - intros name names r. subst r. rewrite (fire_delete_2xx p members m _ M).
    cbv zeta.
    destruct (fetchProblems_names_result (deleteBeltSelector p)
                (displayMessage (Some (JStr m)) "success"
                   (set_deleteBtn_busy false (page_of (deleteForm_submit true p))))
                net name names)
      as (q & E & S & D & _ & Ms & B & _).
    rewrite E. cbn [final status children]. rewrite S, D, Ms, B.
    destruct p. repeat split.
  - intros r. subst r. rewrite (fire_delete_2xx p members m _ M).
    destruct p. repeat split.
Qed.

Lemma delete_then_refresh_witness :
  carries_message [("message", JStr "Deleted p1")] "Deleted p1" /\
  options
    (deleteProblemSelector
       (final
          (fire (deleteForm_submit true)
             [Responded (mkReply true (Some (JObj [("message", JStr "Deleted p1")])));
              Responded (mkReply true (Some (JArr (map JStr ["p2"]))))]
             deleting_page)))
  = [Option4 "-- Select a problem --" "" true true; Option2 "p2" "p2"].
Proof.
  destruct (delete_then_refresh deleting_page
              [("message", JStr "Deleted p1")] "Deleted p1" [] eq_refl)
    as (A & _).
  destruct (A "p2" []) as (_ & _ & O & _).
  split; [reflexivity | exact O].
Defined.

Lemma resume_delete_2xx (q : Page) (members : list (string * JSON)) (m : string)
  (net : list Settlement) :
  carries_message members m ->
  resume (delete_fetched (Responded (mkReply true (Some (JObj members)))) q) net
  = let r := fire (fetchProblemsForBelt (deleteBeltSelector q)) net
               (displayMessage (Some (JStr m)) "success"
                  (set_deleteBtn_busy false q)) in
    mkRun (final r) (Finished Fulfilled) (status r :: children r) (unread r).
Proof.
  unfold carries_message. intros M. destruct q.
  unfold delete_fetched, json, new_response.
  cbn [ok reply body bodyUsed resume]. rewrite run_body.
  unfold delete_parsed, get, get_own. cbn [ok reply]. rewrite M.
  reflexivity.
Qed.

(** X22: the list that is loaded again after a delete is the list of the
    belt selected when the answer arrives, not of the belt that was
    posted.  The delete request carries the form as it is at the submit;
    whatever the page has become when the 2xx answer arrives, the request
    that follows asks for the belt selected then. *)
Theorem delete_refreshes_the_belt_selected_then (p q : Page)
  (members : list (string * JSON)) (m : string) (net : list Settlement) :
  carries_message members m ->
  task_of (deleteForm_submit true p)
  = AwaitFetch (POST "/delete" (deleteForm_data p)) delete_fetched /\
  sent (final
          (resume
             (delete_fetched (Responded (mkReply true (Some (JObj members)))) q)
             net))
  = sent q ++ [GET ("/problems/" ++ deleteBeltSelector q)].
Proof.
  intros M. split; [reflexivity|].
  rewrite (resume_delete_2xx q members m net M). cbv zeta. cbn [final].
  destruct (fetchProblemsForBelt_frame
              (statusContainer q ++ [mkMessage m "success"]) false (sent q)
              (deleteBeltSelector q) net
              (displayMessage (Some (JStr m)) "success"
                 (set_deleteBtn_busy false q)))
    as (_ & _ & L); [|exact L].
  unfold refresh_frame. destruct q. repeat split.
Qed.

Lemma delete_refreshes_the_belt_selected_then_witness :
  carries_message [("message", JStr "Deleted p1")] "Deleted p1" /\
  sent (final
          (resume
             (delete_fetched
                (Responded
                   (mkReply true (Some (JObj [("message", JStr "Deleted p1")]))))
                first_page)
             []))
  = [GET "/problems/"].
Proof.
  split; [reflexivity|].
  exact (proj2 (delete_refreshes_the_belt_selected_then deleting_page first_page
                  [("message", JStr "Deleted p1")] "Deleted p1" [] eq_refl)).
Defined.

(** X23: an answer the delete handler cannot read a message from (a
    network failure, a body that is not JSON, the JSON value [null]), 2xx
    or not, rejects the call: nothing is displayed, the list is not loaded
    again (the delete request is the only one sent) and the problem
    selector and the button keep their state.  The busy flag of the delete
    button is cleared, except after a network failure, where it stays
    set. *)
Theorem delete_unreadable_answer (p : Page) (s : Settlement) (e : Error)
  (net : list Settlement) :
  unreadable s e ->
  let r := fire (deleteForm_submit true) (s :: net) p in
  status r = Finished (Rejected e) /\
  children r = [] /\
  statusContainer (final r) = statusContainer p /\
  sent (final r) = sent p ++ [POST "/delete" (deleteForm_data p)] /\
  deleteProblemSelector (final r) = deleteProblemSelector p /\
  deleteBtn_disabled (final r) = deleteBtn_disabled p /\
  deleteBtn_busy (final r) = busy_after s.
Proof.
  intros U. destruct U as [|o|o]; try destruct o; destruct p; repeat split.
Qed.

Lemma delete_unreadable_answer_witness :
  unreadable Failed NetworkFailure /\
  deleteBtn_busy (final (fire (deleteForm_submit true) [Failed] deleting_page))
  = true /\
  statusContainer
    (final (fire (deleteForm_submit true) [Failed] deleting_page)) = [].
Proof.
  destruct (delete_unreadable_answer deleting_page Failed NetworkFailure []
              unreadable_network) as (_ & _ & M & _ & _ & _ & B).
  split; [constructor|]. split; [exact B | exact M].
Defined.

(** ** Answers that arrive late *)

Lemma generate_fetched_keeps_log formData (s : Settlement) (q : Page)
  (net : list Settlement) :
  sent (final (resume (generate_fetched formData s q) net)) = sent q.
Proof.
  apply (resume_keeps (fun x => sent x = sent q)).
  apply generate_fetched_writes; [|reflexivity].
  intros x S. unfold displayMessage. destruct x. simpl in *.
  repeat split; intros; exact S.
Qed.

Lemma submit_logs_request (p : Page) :
  sent (page_of (generateForm_submit p))
  = sent p ++ [POST "/generate" (generateForm p)].
Proof. destruct p. reflexivity. Qed.

Lemma submit_task (p : Page) :
  task_of (generateForm_submit p)
  = AwaitFetch (POST "/generate" (generateForm p))
      (generate_fetched (generateForm p)).
Proof. reflexivity. Qed.

Lemma submit_keeps_form (p : Page) :
  generateForm (page_of (generateForm_submit p)) = generateForm p.
Proof. destruct p. reflexivity. Qed.

(** X24: the last answer wins.  The generate form is submitted twice before
    any answer; the answer to the second request arrives first, the answer
    to the first request after it.  Two requests were sent, and the page
    ends with the batch of the first request, the one that was answered
    last: its drafts in [generatedProblems], its options in the selector,
    its first draft in the review form. *)
Theorem overlapping_generates_last_answer_wins (p : Page)
  (a b : Problem) (az bz : list Problem) :
  let first := generateForm_submit p in
  let second := generateForm_submit (page_of first) in
  let after_second :=
    final (resume
             (generate_fetched (generateForm (page_of first))
                (Responded
                   (mkReply true (Some (JArr (map problem_json (b :: bz))))))
                (page_of second)) []) in
  let after_first :=
    final (resume
             (generate_fetched (generateForm p)
                (Responded
                   (mkReply true (Some (JArr (map problem_json (a :: az))))))
                after_second) []) in
  task_of first
  = AwaitFetch (POST "/generate" (generateForm p))
      (generate_fetched (generateForm p)) /\
  task_of second
  = AwaitFetch (POST "/generate" (generateForm (page_of first)))
      (generate_fetched (generateForm (page_of first))) /\
  generateForm (page_of first) = generateForm p /\
  sent after_first
  = sent p ++ [POST "/generate" (generateForm p);
               POST "/generate" (generateForm p)] /\
  generatedProblems after_first = JArr (map problem_json (a :: az)) /\
  options (problemSelector after_first) = problem_options 0 (a :: az) /\
  problem_title (review after_first) = title a /\
  verificationSection_hidden after_first = false.
Proof.
  intros first second after_second after_first.
  split; [exact (submit_task p)|].
  split; [exact (submit_task (page_of first))|].
  split; [apply submit_keeps_form|].
  split.
  - subst after_first after_second. rewrite !generate_fetched_keeps_log.
    subst second first.
    rewrite !submit_logs_request, submit_keeps_form, <- List.app_assoc.
    reflexivity.
  - subst after_first. rewrite resume_generate_2xx, generate_parsed_batch.
    destruct (generate_show_batch (generateForm p) a az
                (set_generatedProblems (JArr (map problem_json (a :: az)))
                   (set_generate_busy false
                      (set_loader_hidden true after_second))))
      as (q & E & O & _ & V & R & G); [reflexivity|].
    rewrite E. cbn [resume run final]. rewrite O, V, R, G.
    repeat split.
Qed.

Lemma resume_refresh_2xx (v : JSON) (q : Page) (net : list Settlement) :
  resume (fetchProblemsForBelt_fetched (Responded (mkReply true (Some v))) q) net
  = resume (fetchProblemsForBelt_parsed v q) net.
Proof. reflexivity. Qed.

(** X25: an answer to [fetchProblemsForBelt] is not tied to the belt it was
    asked for: the continuation is the same for every belt, and a 2xx
    answer with names fills and enables the selector on whatever page it
    arrives, leaving the belt selector as it finds it.  A slow answer for
    one belt that arrives after another belt was chosen thus lists the
    problems of the first belt under the second. *)
Theorem problems_answer_fills_under_any_belt (belt : string) (p q : Page)
  (name : string) (names : list string) (net : list Settlement) :
  task_of (fetchProblemsForBelt belt p)
  = AwaitFetch (GET ("/problems/" ++ belt)) fetchProblemsForBelt_fetched /\
  (let r := resume
              (fetchProblemsForBelt_fetched
                 (Responded
                    (mkReply true (Some (JArr (map JStr (name :: names))))))
                 q) net in
   status r = Finished Fulfilled /\
   options (deleteProblemSelector (final r))
   = Option4 "-- Select a problem --" "" true true
       :: map (fun n => Option2 n n) (name :: names) /\
   disabled (deleteProblemSelector (final r)) = false /\
   deleteBtn_disabled (final r) = false /\
   deleteBeltSelector (final r) = deleteBeltSelector q).
Proof.
  split; [reflexivity|].
  intros r. subst r. rewrite resume_refresh_2xx.
  destruct q. unfold fetchProblemsForBelt_parsed.
  cbn [get get_own String.eqb Ascii.eqb Bool.eqb gt_zero map List.length
       Z.of_nat Z.ltb Z.compare].
  rewrite forEach_names.
  cbn. rewrite List.map_map. repeat split.
Qed.
